(** * Verification of the planning core of the workout app

  Shallow embedding of
  - [StudyEngine] v3.1 (progression state machine: getContextForToday,
    getTargets, applySessionResult, loadState/saveState);
  - [BiomechanicalEngine] v3.0 and v2.1 (classify, validateExercise,
    adaptNoAnchor, validateSession);
  - [SessionEngine] v3.0 (seeded RNG, strength selection, packing,
    time closure, generateSession).

  JS numbers that are integers in the code are modelled as [Z]; the few
  genuinely fractional quantities of [getTargets] (the S-curve volume
  multiplier) are modelled as real numbers. *)

From Stdlib Require Import ZArith Bool List String Ascii Lia.
From Stdlib Require Import Reals.
Import ListNotations.
Open Scope Z_scope.

(** ** JS helpers shared by every engine *)
Module JS.

(** [clamp(n, a, b) = Math.max(a, Math.min(b, n))] *)
Definition clamp (n a b : Z) : Z := Z.max a (Z.min b n).

(** [x || d] on a number: [0] is falsy. *)
Definition orZ (x d : Z) : Z := if x =? 0 then d else x.

(** [x || d] on an optional string: [undefined] and [""] are falsy. *)
Definition orS (x : option string) (d : string) : string :=
  match x with
  | Some s => if String.eqb s ""%string then d else s
  | None => d
  end.

(** [Math.floor(p * 1.2)] for an integer [p]: the double product rounds
    to [6p/5] exactly when it is an integer, so this is [floor(6p/5)]. *)
Definition floor12 (p : Z) : Z := (6 * p) / 5.

(** [Array.prototype.indexOf] on a list of numbers ([-1] when absent). *)
Fixpoint indexOf (l : list Z) (x : Z) : Z :=
  match l with
  | [] => -1
  | y :: l' => if y =? x then 0 else
                 let i := indexOf l' x in if i <? 0 then -1 else i + 1
  end.

Definition includes (l : list Z) (x : Z) : bool :=
  existsb (Z.eqb x) l.

(** [arr[i]] for an index known to be in range. *)
Definition at_ (l : list Z) (i : Z) : Z := nth (Z.to_nat i) l 0.

End JS.
Import JS.

(** ** StudyEngine v3.1 *)
Module StudyEngine.

Definition REP_MENU : list Z := [8; 10; 12; 14; 16; 18; 20].
Definition BAND_MENU : list Z := [15; 25; 35].
Definition RPE3_EASY : Z := 1.
Definition RPE3_MOD : Z := 2.
Definition RPE3_HARD : Z := 3.

(** Rep-based family progress: [{ repIndex, band, setBase }]. *)
Record repFam := mkRepFam { repIndex : Z; band : Z; setBase : Z }.
(** Time-based family progress: [{ holdSeconds, setBase }]. *)
Record coreFam := mkCoreFam { holdSeconds : Z; coreSetBase : Z }.
Record progs := mkProgs { pull : repFam; push : repFam; posterior : repFam; core : coreFam }.

(** The persisted athlete state ([lastCompletedDay] is [null] or a
    "YYYY-MM-DD" day key). *)
Record state := mkState {
  version : string;
  week : Z;
  sessionInWeek : Z;
  streak : Z;
  lastCompletedDay : option string;
  hardSessionsInRow : Z;
  deloadArmed : bool;
  prog : progs
}.

Definition defaultState : state := {|
  version := "3.1"; week := 1; sessionInWeek := 0; streak := 0;
  lastCompletedDay := None; hardSessionsInRow := 0; deloadArmed := false;
  prog := {| pull := mkRepFam 1 15 3; push := mkRepFam 1 15 3;
             posterior := mkRepFam 1 15 2; core := mkCoreFam 25 2 |} |}.

(** *** Day keys
    [new Date(k + "T00:00:00")] for a key "YYYY-MM-DD", as a day number
    (days since 1970-01-01); [None] stands for an Invalid Date (NaN). The
    difference [Math.round((cur - last) / 86400000)] of two local
    midnights is the difference of their day numbers. *)
Definition digit (c : ascii) : option Z :=
  let n := Z.of_nat (nat_of_ascii c) - 48 in
  if (0 <=? n) && (n <=? 9) then Some n else None.

Fixpoint digits (s : string) (acc : Z) : option Z :=
  match s with
  | EmptyString => Some acc
  | String c s' => match digit c with
                   | Some d => digits s' (10 * acc + d)
                   | None => None
                   end
  end.

(** Days from the civil date (proleptic Gregorian calendar). *)
Definition days_from_civil (y m d : Z) : Z :=
  let y' := if m <=? 2 then y - 1 else y in
  let era := y' / 400 in
  let yoe := y' - era * 400 in
  let mp := (m + 9) mod 12 in
  let doy := (153 * mp + 2) / 5 + d - 1 in
  let doe := yoe * 365 + yoe / 4 - yoe / 100 + doy in
  era * 146097 + doe - 719468.

Definition dayNumber (k : string) : option Z :=
  if Nat.eqb (String.length k) 10
     && String.eqb (substring 4 1 k) "-" && String.eqb (substring 7 1 k) "-" then
    match digits (substring 0 4 k) 0, digits (substring 5 2 k) 0,
          digits (substring 8 2 k) 0 with
    | Some y, Some m, Some d =>
        if (1 <=? m) && (m <=? 12) && (1 <=? d) && (d <=? 31)
        then Some (days_from_civil y m d) else None
    | _, _, _ => None
    end
  else None.

(** *** Session results
    [result = { dayKey, rpe3, summary }]; a missing number is [0]. *)
Record summary := mkSummary {
  sm_pullRepsDone : Z; sm_pull : Z;
  sm_pushRepsDone : Z; sm_push : Z;
  sm_posteriorRepsDone : Z; sm_posterior : Z;
  sm_core : Z
}.
Record result := mkResult {
  r_dayKey : option string;
  r_rpe3 : Z;
  r_summary : summary
}.

(** [function progressBandIfPossible(prog)]: [Some prog'] when upgraded. *)
Definition progressBandIfPossible (p : repFam) : option repFam :=
  let idx := indexOf BAND_MENU (band p) in
  if (idx >=? 0) && (idx <? Z.of_nat (List.length BAND_MENU) - 1) then
    Some {| repIndex := 2; band := at_ BAND_MENU (idx + 1); setBase := setBase p |}
  else None.

(** [advanceFamily(key, repsDone)] for key pull/push/posterior; [armed] is
    [st.deloadArmed] at the time of the call. *)
Definition advanceRepFamily (armed : bool) (rpe3 : Z) (p : repFam) (repsDone : Z)
  : repFam :=
  if armed then
    {| repIndex := clamp (repIndex p - 1) 0 6; band := band p; setBase := setBase p |}
  else
    let target := at_ REP_MENU (clamp (repIndex p) 0 6) in
    let success := (repsDone >=? target) && negb (rpe3 =? RPE3_HARD) in
    let fail := (repsDone <? Z.max 6 (target - 4)) || (rpe3 =? RPE3_HARD) in
    if success then
      if repIndex p <? 6 then
        {| repIndex := repIndex p + 1; band := band p; setBase := setBase p |}
      else
        match progressBandIfPossible p with
        | Some p' => p'
        | None => {| repIndex := repIndex p; band := band p;
                     setBase := clamp (setBase p + 1) 2 5 |}
        end
    else if fail then
      {| repIndex := clamp (repIndex p - 1) 0 6; band := band p; setBase := setBase p |}
    else p.

(** [advanceFamily("core", _)]: time-based. *)
Definition advanceCore (rpe3 : Z) (c : coreFam) : coreFam :=
  if negb (rpe3 =? RPE3_HARD)
  then {| holdSeconds := clamp (orZ (holdSeconds c) 25 + 5) 15 60;
          coreSetBase := coreSetBase c |}
  else {| holdSeconds := clamp (orZ (holdSeconds c) 25 - 5) 15 60;
          coreSetBase := coreSetBase c |}.

(** Streak update: [today] is [todayISO()] at the time of the call. *)
Definition newStreak (st : state) (dayKey : string) : Z :=
  match lastCompletedDay st with
  | Some last =>
      if String.eqb last "" then 1 else
      match dayNumber dayKey, dayNumber last with
      | Some cur, Some l =>
          let diff := cur - l in
          if diff =? 1 then streak st + 1
          else if diff >? 1 then 1 else streak st
      | _, _ => streak st
      end
  | None => 1
  end.

(** [StudyEngine.applySessionResult(state, result)], with the in-place
    mutations of [st] written as a sequence of updates. *)
Definition applySessionResult (today : string) (st : state) (r : result) : state :=
  let dayKey := orS (r_dayKey r) today in
  let streak' := newStreak st dayKey in
  let rpe3 := clamp (orZ (r_rpe3 r) RPE3_MOD) 1 3 in
  let hard' := if rpe3 =? RPE3_HARD then hardSessionsInRow st + 1 else 0 in
  let armed := if hard' >=? 2 then true else deloadArmed st in
  let s := r_summary r in
  let P := prog st in
  let pull' := advanceRepFamily armed rpe3 (pull P)
                 (orZ (sm_pullRepsDone s) (orZ (sm_pull s) 0)) in
  let push' := advanceRepFamily armed rpe3 (push P)
                 (orZ (sm_pushRepsDone s) (orZ (sm_push s) 0)) in
  let post' := advanceRepFamily armed rpe3 (posterior P)
                 (orZ (sm_posteriorRepsDone s) (orZ (sm_posterior s) 0)) in
  let core' := advanceCore rpe3 (core P) in
  (* posterior constraint (global) *)
  let maxPosterior := Z.max 1 (floor12 (setBase pull')) in
  let post'' := {| repIndex := repIndex post'; band := band post';
                   setBase := Z.min (setBase post') maxPosterior |} in
  (* advance week every 3 sessions *)
  let siw := Z.rem (sessionInWeek st + 1) 3 in
  let week' := if siw =? 0 then week st + 1 else week st in
  (* consume deload if it was armed *)
  let armed' := if armed then false else armed in
  {| version := version st; week := week'; sessionInWeek := siw;
     streak := streak'; lastCompletedDay := Some dayKey;
     hardSessionsInRow := hard'; deloadArmed := armed';
     prog := {| pull := pull'; push := push'; posterior := post''; core := core' |} |}.

(** Runs of completions from a state: the list of states persisted after
    each call. *)
Fixpoint trace (today : string) (st : state) (rs : list result) : list state :=
  match rs with
  | [] => []
  | r :: rs' => let st' := applySessionResult today st r in st' :: trace today st' rs'
  end.

(** Invariant I1 as the code re-asserts it. *)
Definition I1 (st : state) : Prop :=
  setBase (posterior (prog st)) <= Z.max 1 (floor12 (setBase (pull (prog st)))).

(** The effort level and the reps per family that [applySessionResult]
    reads from a result ([s.fRepsDone || s.f || 0]). *)
Definition effortOf (r : result) : Z := clamp (orZ (r_rpe3 r) RPE3_MOD) 1 3.
Definition pullRepsOf (r : result) : Z :=
  orZ (sm_pullRepsDone (r_summary r)) (orZ (sm_pull (r_summary r)) 0).
Definition pushRepsOf (r : result) : Z :=
  orZ (sm_pushRepsDone (r_summary r)) (orZ (sm_push (r_summary r)) 0).
Definition posteriorRepsOf (r : result) : Z :=
  orZ (sm_posteriorRepsDone (r_summary r)) (orZ (sm_posterior (r_summary r)) 0).

(** A result reporting a "hard" session. *)
Definition hardResult : result :=
  mkResult (Some "2026-10-17"%string) 3 (mkSummary 0 0 0 0 0 0 0).

(** Concrete inputs used by the examples: a day key, a state whose pull
    family sits at the top of the rep menu (band 15 or 35), and a
    successful moderate-effort result with 20 pull reps. *)
Definition day0 : string := "2026-10-17".
Definition withPull (p : repFam) (st : state) : state :=
  {| version := version st; week := week st; sessionInWeek := sessionInWeek st;
     streak := streak st; lastCompletedDay := lastCompletedDay st;
     hardSessionsInRow := hardSessionsInRow st; deloadArmed := deloadArmed st;
     prog := {| pull := p; push := push (prog st); posterior := posterior (prog st);
                core := core (prog st) |} |}.
Definition topState15 : state := withPull (mkRepFam 6 15 3) defaultState.
Definition topState35 : state := withPull (mkRepFam 6 35 3) defaultState.
Definition successResult : result :=
  mkResult (Some "2026-10-17"%string) 1 (mkSummary 20 0 0 0 0 0 0).

(** A state whose posterior family sits at the top of the rep menu with
    band 35 and 3 sets, next to a pull family with 3 sets at the bottom of
    the menu, and a result that succeeds on both (8 pull reps, 20
    posterior reps). *)
Definition topPosteriorState : state :=
  {| version := "3.1"; week := 1; sessionInWeek := 0; streak := 0;
     lastCompletedDay := None; hardSessionsInRow := 0; deloadArmed := false;
     prog := {| pull := mkRepFam 0 15 3; push := mkRepFam 1 15 3;
                posterior := mkRepFam 6 35 3; core := mkCoreFam 25 2 |} |}.
Definition posteriorSuccessResult : result :=
  mkResult (Some "2026-10-17"%string) 1 (mkSummary 8 0 0 0 20 0 0).

(** The middle entry of the rep menu. *)
Definition repMenuMiddle : Z := Z.of_nat (List.length REP_MENU) / 2.

(** *** Context *)
Record ctx := mkCtx {
  dayKey : string; minutes : Z; runDay : bool; fasting : bool;
  rpe3 : Z; noAnchors : bool; equipment : list string
}.

(** The UI flags: an absent or falsy number is [0]; [minutes] and
    [noAnchors] are [undefined] when absent; booleans are their truthiness. *)
Record userFlags := mkFlags {
  f_minutes : option Z; f_runDay : bool; f_fasting : bool; f_rpe3 : Z;
  f_noAnchors : option bool; f_equipment : option (list string)
}.

Definition emptyFlags : userFlags := mkFlags None false false 0 None None.

(** [StudyEngine.getContextForToday(userFlags)]; [today] is [todayISO()]. *)
Definition getContextForToday (today : string) (flags : userFlags) : ctx :=
  let minutes := match f_minutes flags with
                 | Some m => if (m =? 35) || (m =? 30) || (m =? 25) then m else 25
                 | None => 25
                 end in
  {| dayKey := today; minutes := minutes; runDay := f_runDay flags;
     fasting := f_fasting flags; rpe3 := clamp (orZ (f_rpe3 flags) RPE3_MOD) 1 3;
     noAnchors := match f_noAnchors flags with Some b => b | None => true end;
     equipment := match f_equipment flags with
                  | Some l => l
                  | None => ["bodyweight"; "band"; "miniloop"; "rope"; "stick"]%string
                  end |}.

(** *** Targets
    Real-number model of the double arithmetic of [getTargets]. *)
Local Open Scope R_scope.

(** [Math.round(x) = Math.floor(x + 0.5)]; [up y - 1] is [floor y]. *)
Definition round (x : R) : Z := (up (x + / 2) - 1)%Z.
(** [Number(x.toFixed(3))] *)
Definition toFixed3 (x : R) : R := IZR (round (x * 1000)) / 1000.

Definition sCurve01 (week1to12 : Z) : R :=
  let w := IZR (clamp week1to12 1 12 - 1) in
  let x := (w - 11 / 2) / 2 in
  1 / (1 + exp (- x)).

Definition volumeMultiplier (week1to12 : Z) : R :=
  let s := sCurve01 week1to12 in
  90 / 100 + (112 / 100 - 90 / 100) * s.

(** [StudyEngine.getRestSeconds]: [TrainingKnowledge.modifiers] has no
    [restSeconds] function, so the fallback table applies. *)
Definition getRestSeconds (rpe3 : Z) (deload : bool) : Z :=
  if deload then 25 else
  if (rpe3 =? RPE3_EASY)%Z then 25 else
  if (rpe3 =? RPE3_MOD)%Z then 35 else 45.

Record famTarget := mkFamTarget {
  t_sets : Z; t_reps : Z; t_band : Z; t_rest : Z;
  t_repMenu : list Z; t_bandMenu : list Z
}.
Record targets := mkTargets {
  meta_week : Z; meta_sessionInWeek : Z; meta_deload : bool; meta_mult : R;
  warmup_cycles : Z; mobility_count : Z;
  strength_pull : famTarget; strength_push : famTarget;
  strength_posterior : famTarget;
  core_sets : Z; core_seconds : Z; core_rest : Z;
  cooldown_count : Z
}.

(** The multiplier after every modifier, and the deload flag. *)
Definition deloadOf (st : state) : bool :=
  deloadArmed st || ((Z.rem (week st) 4 =? 0) && (sessionInWeek st =? 0))%Z.

Definition multOf (st : state) (c : ctx) : R :=
  let m0 := volumeMultiplier (week st) in
  let m1 := if (minutes c <=? 25)%Z then m0 * (95 / 100) else m0 in
  let m2 := if (minutes c >=? 35)%Z then m1 * (105 / 100) else m1 in
  let m3 := if runDay c then m2 * (92 / 100) else m2 in
  let m4 := if fasting c then m3 * (88 / 100) else m3 in
  let m5 := if deloadOf st then m4 * (70 / 100) else m4 in
  if (rpe3 c =? RPE3_HARD)%Z then m5 * (93 / 100) else m5.

(** [StudyEngine.getTargets(state, ctx)] *)
Definition getTargets (st : state) (c : ctx) : targets :=
  let deload := deloadOf st in
  let mult := multOf st c in
  let P := prog st in
  let pullSets := clamp (round (IZR (setBase (pull P)) * mult)) 2 6 in
  let pushSets := clamp (round (IZR (setBase (push P)) * mult)) 2 6 in
  let posteriorSets0 := clamp (round (IZR (setBase (posterior P)) * mult)) 1 4 in
  let posteriorSets := Z.min posteriorSets0 (Z.max 1 (floor12 pullSets)) in
  let coreSets := clamp (round (IZR (coreSetBase (core P)) * mult)) 1 4 in
  let pullReps := at_ REP_MENU (clamp (repIndex (pull P)) 0 6) in
  let pushReps := at_ REP_MENU (clamp (repIndex (push P)) 0 6) in
  let postReps := at_ REP_MENU (clamp (repIndex (posterior P)) 0 6) in
  let baseHold := orZ (holdSeconds (core P)) 25 in
  let hold := clamp (round (IZR baseHold * (if deload then 85 / 100 else 1)
                                         * (if fasting c then 95 / 100 else 1))) 15 60 in
  let bandOr15 b := if includes BAND_MENU b then b else 15%Z in
  let rest := getRestSeconds (rpe3 c) deload in
  {| meta_week := week st; meta_sessionInWeek := sessionInWeek st;
     meta_deload := deload; meta_mult := toFixed3 mult;
     warmup_cycles := if (minutes c >=? 35)%Z then 2%Z else 1%Z;
     mobility_count := 2;
     strength_pull := mkFamTarget pullSets pullReps (bandOr15 (band (pull P))) rest
                                  REP_MENU BAND_MENU;
     strength_push := mkFamTarget pushSets pushReps (bandOr15 (band (push P))) rest
                                  REP_MENU BAND_MENU;
     strength_posterior := mkFamTarget posteriorSets postReps
                                       (bandOr15 (band (posterior P))) rest
                                       REP_MENU BAND_MENU;
     core_sets := coreSets; core_seconds := hold; core_rest := 15;
     cooldown_count := 1 |}.

Local Close Scope R_scope.

(** UI flags carrying only a duration. *)
Definition flagsMinutes (m : option Z) : userFlags := mkFlags m false false 0 None None.

End StudyEngine.

(** ** Persistence of the StudyEngine state *)
Module Persist.
Import StudyEngine.

(** JSON values with integer numbers: exactly the values [JSON.stringify]
    produces from a state whose numbers are integers, so that
    [JSON.parse(JSON.stringify(v))] gives [v] back (object keys keep their
    order and are distinct). *)
Local Set Warnings "-register-all".
Inductive json : Type :=
| JNull
| JBool (b : bool)
| JNum (n : Z)
| JStr (s : string)
| JArr (l : list json)
| JObj (fields : list (string * json)).

(** [o[k]]: with distinct keys the last binding is the only one. *)
Fixpoint get (k : string) (fs : list (string * json)) : option json :=
  match fs with
  | [] => None
  | (k', v) :: fs' => match get k fs' with
                      | Some w => Some w
                      | None => if String.eqb k k' then Some v else None
                      end
  end.

(** Truthiness of a JSON value ([undefined] is [None]). *)
Definition truthy (v : option json) : bool :=
  match v with
  | None | Some JNull | Some (JBool false) | Some (JNum 0) => false
  | Some (JStr s) => negb (String.eqb s ""%string)
  | Some _ => true
  end.

(** [JSON.stringify] of the state object: the fields in the order
    [defaultState] creates them. *)
Definition repFam_to_json (p : repFam) : json :=
  JObj [("repIndex", JNum (repIndex p)); ("band", JNum (band p));
        ("setBase", JNum (setBase p))]%string.

Definition saveState (st : state) : json :=
  let P := prog st in
  JObj [("version", JStr (version st)); ("week", JNum (week st));
        ("sessionInWeek", JNum (sessionInWeek st)); ("streak", JNum (streak st));
        ("lastCompletedDay", match lastCompletedDay st with
                             | Some d => JStr d | None => JNull end);
        ("hardSessionsInRow", JNum (hardSessionsInRow st));
        ("deloadArmed", JBool (deloadArmed st));
        ("prog", JObj [("pull", repFam_to_json (pull P));
                       ("push", repFam_to_json (push P));
                       ("posterior", repFam_to_json (posterior P));
                       ("core", JObj [("holdSeconds", JNum (holdSeconds (core P)));
                                      ("setBase", JNum (coreSetBase (core P)))])])]%string.

(** [typeof v === "number" ? v : d] *)
Definition numOr (v : option json) (d : Z) : Z :=
  match v with Some (JNum n) => n | _ => d end.

(** A number field read by later code; [None] when it is not a number,
    which the typed state does not represent. *)
Definition numField (fs : list (string * json)) (k : string) : option Z :=
  match get k fs with Some (JNum n) => Some n | _ => None end.

(** [st.prog.f = st.prog.f || dflt], read back as a typed family. *)
Definition loadRepFam (v : option json) (dflt : repFam) : option repFam :=
  if truthy v then
    match v with
    | Some (JObj fs) =>
        match numField fs "repIndex", numField fs "band", numField fs "setBase" with
        | Some i, Some b, Some sb => Some (mkRepFam i b sb)
        | _, _, _ => None
        end
    | _ => None
    end
  else Some dflt.

Definition loadCoreFam (v : option json) : option coreFam :=
  if truthy v then
    match v with
    | Some (JObj fs) =>
        match get "holdSeconds"%string fs, numField fs "setBase" with
        | Some (JNum h), Some sb => Some (mkCoreFam h sb)
        | None, Some sb => Some (mkCoreFam 0 sb)  (* [holdSeconds || 25] reads it as absent *)
        | _, _ => None
        end
    | _ => None
    end
  else Some (mkCoreFam 25 2).

(** [loadState()] applied to [jparse(raw, null)] ([None]: no stored item
    or a parse failure). The result is [None] when the loaded object lies
    outside the typed state (a field of the wrong JS type that later code
    reads). *)
Definition loadState (parsed : option json) : option state :=
  match parsed with
  | Some (JObj fs) =>
      if negb (truthy (get "prog"%string fs)) then Some defaultState else
      match get "prog"%string fs with
      | Some (JObj pfs) =>
          let version :=
            match get "version"%string fs with
            | Some (JStr v) => Some (if String.eqb v ""%string then "3.1"%string else v)
            | v => if truthy v then None else Some "3.1"%string
            end in
          let last :=
            match get "lastCompletedDay"%string fs with
            | Some (JStr d) => Some (Some d)
            | None | Some JNull => Some None
            | _ => None
            end in
          match version, last,
                loadRepFam (get "pull"%string pfs) (mkRepFam 1 15 3),
                loadRepFam (get "push"%string pfs) (mkRepFam 1 15 3),
                loadRepFam (get "posterior"%string pfs) (mkRepFam 1 15 2),
                loadCoreFam (get "core"%string pfs) with
          | Some v, Some l, Some pl, Some pu, Some po, Some co =>
              Some {| version := v;
                      week := numOr (get "week"%string fs) 1;
                      sessionInWeek := numOr (get "sessionInWeek"%string fs) 0;
                      streak := numOr (get "streak"%string fs) 0;
                      lastCompletedDay := l;
                      hardSessionsInRow := numOr (get "hardSessionsInRow"%string fs) 0;
                      deloadArmed := truthy (get "deloadArmed"%string fs);
                      prog := mkProgs pl pu po co |}
          | _, _, _, _, _, _ => None
          end
      | _ => None
      end
  | _ => Some defaultState
  end.

End Persist.

(** ** Strings as the engines use them *)
Module Text.

(** [String(s || "").toLowerCase()] on the ASCII range. *)
Definition lower_ascii (c : ascii) : ascii :=
  let n := nat_of_ascii c in
  if (Nat.leb 65 n && Nat.leb n 90)%bool then ascii_of_nat (n + 32) else c.

Fixpoint lower (s : string) : string :=
  match s with
  | EmptyString => EmptyString
  | String c s' => String (lower_ascii c) (lower s')
  end.

(** [t.includes(k)] *)
Fixpoint includes (t k : string) : bool :=
  match t with
  | EmptyString => String.eqb k ""%string
  | String _ t' => String.prefix k t || includes t' k
  end.

(** [hasAny(text, keywords)]: [lower(text)] contains some [lower(k)];
    [None] is [undefined]. *)
Definition hasAny (text : option string) (keywords : list string) : bool :=
  let t := lower (match text with Some s => s | None => ""%string end) in
  existsb (fun k => includes t (lower k)) keywords.

(** [Array.from(new Set(l))]: first occurrences in order. *)
Fixpoint dedup (l : list string) : list string :=
  match l with
  | [] => []
  | x :: l' => x :: filter (fun y => negb (String.eqb x y)) (dedup l')
  end.

(** [.filter(Boolean)] on strings. *)
Definition nonEmpty (l : list string) : list string :=
  filter (fun x => negb (String.eqb x ""%string)) l.

(** [arr.slice(0, n)] *)
Definition slice0 {A} (n : nat) (l : list A) : list A := firstn n l.

(** Decimal form of a non-negative integer ([String(n)]). *)
Fixpoint digits_of (fuel : nat) (n : Z) (acc : string) : string :=
  match fuel with
  | O => acc
  | S f =>
      let d := ascii_of_nat (48 + Z.to_nat (n mod 10)) in
      if n <? 10 then String d acc else digits_of f (n / 10) (String d acc)
  end.

Definition zstr (n : Z) : string :=
  if n <? 0 then String "-"%char (digits_of 64 (- n) EmptyString)
  else digits_of 64 n EmptyString.

(** [arr.join("|")] *)
Fixpoint join (sep : string) (l : list string) : string :=
  match l with
  | [] => EmptyString
  | [x] => x
  | x :: l' => (x ++ sep ++ join sep l')%string
  end.

End Text.

(** ** TrainingKnowledge (the logic parts and the data the engines read) *)
Module TrainingKnowledge.
Import Text.
Local Open Scope string_scope.

Definition REPS : string := "reps".
Definition SECONDS : string := "seconds".
Definition MIXED : string := "mixed".

(** [classifyDoseType(ex)], from the name and the tags of [ex]. *)
Definition classifyDoseType (name : option string) (tags : list string) : string :=
  let n := lower (match name with Some s => s | None => "" end) in
  let ts := map lower tags in
  let has s := includes n s || existsb (String.eqb s) ts in
  if has "plank" || has "side plank" || has "hollow" || has "hold" ||
     has "isometric" || has "iso" || has "dead bug hold" ||
     has "bridge hold" || has "wall sit" then SECONDS
  else if has "tenuta" || has "pause" || has "isometria" then MIXED
  else REPS.

(** [tempo.defaultSeconds] and the tempo helpers. *)
Record tempo := mkTempo { down : Z; hold : Z; up : Z }.
Definition defaultSeconds : tempo := mkTempo 2 1 2.

Definition estimateSetSeconds (reps : Z) (t : option tempo) : Z :=
  let t := match t with Some t => t | None => defaultSeconds end in
  let repSec := down t + hold t + up t in
  Z.max 0 (reps * repSec).

Definition estimateHoldSeconds (seconds : Z) : Z := Z.max 0 seconds.

Definition universalCues : list string := [
  "Collo neutro, mento leggermente retratto.";
  "Costole giù (no flare), addome compatto.";
  "Bacino neutro o lieve retroversione nelle tenute (plank).";
  "Respirazione controllata: espira nella fase di sforzo, non trattenere."].

Definition stopRules : list string := [
  "Dolore acuto, irradiato, formicolii: interrompere e regredire.";
  "Perdita di neutral spine ripetuta: riduci banda/reps o cambia esercizio.";
  "Aumento dolore il giorno dopo >2/10 rispetto al baseline: deload nella prossima seduta."].

Definition cautionPatterns : list string := [
  "Flessione lombare ripetuta sotto fatica (hinge che degrada, crunch aggressivi).";
  "Rotazioni veloci del tronco se perdi controllo (Russian twist pesante).";
  "Tenute prolungate in flessione (es. buon-morning in postura scarsa)."].

Definition preSetChecklist : list string := [
  "Piedi stabili, pressione tripode (alluce–mignolo–tallone).";
  "Colonna neutra: no gobba/no iperlordosi.";
  "Scapole: depresse/retratte quanto basta, collo lungo.";
  "Addome attivo: espira, chiudi costole."].

Definition byPattern_hinge : list string := [
  "Anche indietro, tibie quasi verticali.";
  "Band vicino al corpo, non tirare con schiena.";
  "Stop se senti la lombare 'prendere carico' più dei glutei."].
Definition byPattern_rowPull : list string := [
  "Spalle lontane dalle orecchie.";
  "Tira con gomiti, non con bicipite/cervicale."].
Definition byPattern_push : list string := [
  "Costole giù, glutei attivi.";
  "Gomiti 30–45° (non flare)."].
Definition byPattern_plank : list string := [
  "Retroversione bacino leggera, addome compatto (fonte)  [oai_citation:14‡Attivit_fisica_Lombalgia.pdf](sediment://file_000000003ec8720a9dc16b0c9c7dc04e)"].

(** [dosingTemplates] examples: [{ item, unit, range }]. *)
Record example := mkExample { item : string; unit : string; range_lo : Z; range_hi : Z }.
Definition coreControlExamples : list example := [
  mkExample "Plank" "seconds" 15 30;
  mkExample "Side plank" "seconds" 15 30;
  mkExample "Bird dog (controllo)" "reps" 6 10].
(** [breathingCooldown.protocol]: [perPhaseRange] and the phases. *)
Definition cooldownPerPhaseRange : Z * Z := (3, 4).
Definition cooldownPhases : list string := ["inspira"; "trattieni"; "espira"; "vuoto"].

End TrainingKnowledge.

(** ** BiomechanicalEngine *)

(** Verdict of [validateExercise]: [{ ok: true }] or [{ ok: false, reason }]. *)
Inductive verdict := Accept | Reject (reason : string).

Definition verdict_ok (v : verdict) : bool :=
  match v with Accept => true | Reject _ => false end.

(** The context fields [validateExercise] reads ([band] is [undefined] or a
    number; the booleans are truthiness). *)
Record vctx := mkVctx { vc_runDay : bool; vc_fasting : bool; vc_deload : bool;
                        vc_band : option Z }.

(** *** v3.0 (first definition in the file): [validateExercise] over the
    classified record that v3.0's [classify] returns. *)
Module BiomechanicalEngineV3.

Record classified := mkClassified {
  pattern : string; family : string;
  compressiveLoad : Z; shearLoad : Z; lumbarRisk : Z }.

Definition validateExercise (ex : classified) (c : vctx) : verdict :=
  if vc_runDay c && String.eqb (pattern ex) "hinge" then Reject "Run day: hinge escluso"
  else if vc_fasting c && (compressiveLoad ex >? 1) then Reject "Fasting: carico compressivo alto"
  else if vc_deload c && String.eqb (pattern ex) "plyometric" then Reject "Deload: plyometric escluso"
  else Accept.

End BiomechanicalEngineV3.

(** *** v2.1 (second definition, the one SessionEngine v3.0 calls: it alone
    exports [adaptExerciseNoAnchor] and computes [allowedMaxBand]). *)
Module BiomechanicalEngine.
Import Text.
Local Open Scope string_scope.

(** A catalog entry: the fields the engines read. [None] is [undefined];
    the three flags are truthiness. *)
Local Set Warnings "-register-all".
Inductive rawEx : Type := mkRaw {
  rx_id : option string;
  rx_name : option string;
  rx_requiresAnchor : option bool;
  rx_anchor : option bool;
  rx_tags : option (list string);
  rx_family : option string;
  rx_group : option string;
  rx_category : option string;
  rx_movement_pattern : option string;
  rx_hinge : bool;
  rx_antiRotation : bool;
  rx_antiExtension : bool;
  rx_allowedMaxBand : option Z;
  rx_unit : option string;             (* [prescription.unit] *)
  rx_cues : option (list string);
  rx_note : option string;
  rx_adaptedId : option string;
  rx_adaptedVersion : option rawEx
}.

(** A catalog entry with only a name. *)
Definition named (id name : string) : rawEx :=
  mkRaw (Some id) (Some name) None None None None None None None false false false
        None None None None None None.

Definition with_requiresAnchor (e : rawEx) (b : option bool) : rawEx :=
  mkRaw (rx_id e) (rx_name e) b (rx_anchor e) (rx_tags e) (rx_family e) (rx_group e)
        (rx_category e) (rx_movement_pattern e) (rx_hinge e) (rx_antiRotation e)
        (rx_antiExtension e) (rx_allowedMaxBand e) (rx_unit e) (rx_cues e) (rx_note e)
        (rx_adaptedId e) (rx_adaptedVersion e).

Definition with_tags_unit (e : rawEx) (tags : list string) (u : option string) : rawEx :=
  mkRaw (rx_id e) (rx_name e) (rx_requiresAnchor e) (rx_anchor e) (Some tags) (rx_family e)
        (rx_group e) (rx_category e) (rx_movement_pattern e) (rx_hinge e)
        (rx_antiRotation e) (rx_antiExtension e) (rx_allowedMaxBand e) u (rx_cues e)
        (rx_note e) (rx_adaptedId e) (rx_adaptedVersion e).

Definition truthyS (s : option string) : bool :=
  match s with Some x => negb (String.eqb x "") | None => false end.

(** [TrainingKnowledge.normalizeExercisePrescription(clone)] *)
Definition normalizeExercisePrescription (e : rawEx) : rawEx :=
  let tags := match rx_tags e with Some t => t | None => [] end in
  let dt := TrainingKnowledge.classifyDoseType (rx_name e) tags in
  let u1 := if String.eqb dt TrainingKnowledge.SECONDS then Some "seconds" else rx_unit e in
  let n := lower (match rx_name e with Some s => s | None => "" end) in
  let u2 := if includes n "side plank" || includes n "plank laterale" then Some "seconds" else u1 in
  with_tags_unit e tags u2.

(** [normalizeExercise(ex)] *)
Definition normalizeExercise (e : rawEx) : rawEx :=
  let ra := match rx_requiresAnchor e with
            | Some b => Some b
            | None => match rx_anchor e with
                      | Some a => Some a
                      | None => Some (hasAny (Some (lower (match rx_name e with Some s => s | None => "" end)))
                                             ["anchor"; "door"; "porta"; "ancor"; "fiss"])
                      end
            end in
  let e1 := with_requiresAnchor e ra in
  let tags := match rx_tags e with Some t => t | None => [] end in
  let tags := List.app tags (if truthyS (rx_family e) then [orS (rx_family e) ""] else []) in
  let tags := List.app tags (if truthyS (rx_movement_pattern e) then [orS (rx_movement_pattern e) ""] else []) in
  normalizeExercisePrescription (with_tags_unit e1 tags (rx_unit e1)).

(** The object [classify] returns: the normalized entry ([...ex0]) and the
    computed fields. *)
Record classified := mkClassified {
  c_ex : rawEx;
  doseType : string;
  isIsometric : bool;
  family : string;
  pattern : string;
  hinge : bool;
  antiRotation : bool;
  antiExtension : bool;
  compressiveLoad : Z;
  shearLoad : Z;
  lumbarStress : Z;
  lumbarRisk : Z;
  allowedMaxBand : Z
}.

Definition c_name (e : classified) : option string := rx_name (c_ex e).
Definition c_id (e : classified) : option string := rx_id (c_ex e).
Definition c_requiresAnchor (e : classified) : bool :=
  match rx_requiresAnchor (c_ex e) with Some b => b | None => false end.

(** [classify(exRaw)] *)
Definition classify (exRaw : rawEx) : classified :=
  let ex0 := normalizeExercise exRaw in
  let name := Some (lower (match rx_name ex0 with Some s => s | None => "" end)) in
  let tags := match rx_tags ex0 with Some t => t | None => [] end in
  let doseType := TrainingKnowledge.classifyDoseType (rx_name ex0) tags in
  let hinge := rx_hinge ex0 || hasAny name ["rdl"; "romanian"; "good morning"; "hip hinge"; "deadlift"; "stacco"] in
  let antiRotation := rx_antiRotation ex0 || hasAny name ["pallof"; "anti-rot"] in
  let antiExtension := rx_antiExtension ex0 || hasAny name ["plank"; "hollow"; "dead bug"; "anti-ext"] in
  let isIsometric := String.eqb doseType TrainingKnowledge.SECONDS || hasAny name ["hold"; "isometric"; "iso"] in
  let family :=
    orS (rx_family ex0) (orS (rx_group ex0) (orS (rx_category ex0)
      (if hasAny name ["plank"; "dead bug"; "hollow"; "core"] then "core"
       else if hasAny name ["squat"; "lunge"; "deadlift"; "rdl"; "glute"; "hip"; "calf"; "tibialis"] then "posterior"
       else "upper"))) in
  let pattern :=
    orS (rx_movement_pattern ex0)
      (if hinge then "hinge"
       else if String.eqb family "core" && antiRotation then "anti_rotation"
       else if String.eqb family "core" && antiExtension then "anti_extension"
       else if String.eqb family "core" then "core_general"
       else if String.eqb family "upper" && hasAny name ["push"; "press"; "dip"] then "push"
       else if String.eqb family "upper" then "pull"
       else "general") in
  let '(c1, s1, l1) := (1, 1, 1) in
  let '(c2, s2, l2) := if isIsometric then (0, (if antiRotation then 0 else 1), 1) else (c1, s1, l1) in
  let '(c3, s3, l3) := if hinge then (2, 2, 2) else (c2, s2, l2) in
  let '(c4, s4, l4) := if String.eqb family "core" && antiExtension then (0, 1, 1) else (c3, s3, l3) in
  let lumbarRisk := clamp ((l4 + s4) - (if isIsometric then 1 else 0)) 0 3 in
  let allowedMaxBand :=
    match rx_allowedMaxBand ex0 with
    | Some b => b
    | None => if hinge || String.eqb family "posterior" then 25 else 35
    end in
  {| c_ex := ex0; doseType := doseType; isIsometric := isIsometric; family := family;
     pattern := pattern; hinge := hinge; antiRotation := antiRotation;
     antiExtension := antiExtension; compressiveLoad := c4; shearLoad := s4;
     lumbarStress := l4; lumbarRisk := lumbarRisk; allowedMaxBand := allowedMaxBand |}.

(** [validateExercise(exClassified, ctx)] ([allowedMaxBand] is always a
    number after [classify]). *)
Definition validateExercise (ex : classified) (c : vctx) : verdict :=
  if vc_fasting c && (compressiveLoad ex >? 1) then Reject "Fasting: esercizio troppo compressivo"
  else if vc_runDay c && hinge ex then Reject "Run day: hinge escluso"
  else match vc_band c with
       | Some b => if b >? allowedMaxBand ex then Reject "Banda troppo alta per esercizio"
                   else Accept
       | None => Accept
       end.

End BiomechanicalEngine.

(** ** BiomechanicalEngine v2.1: no-anchor adaptation, cues, warnings *)
Module BiomechanicalAdapt.
Import Text BiomechanicalEngine.
Local Open Scope string_scope.

Definition with_requiresAnchor_c (e : classified) (b : bool) : classified :=
  {| c_ex := with_requiresAnchor (c_ex e) (Some b); doseType := doseType e;
     isIsometric := isIsometric e; family := family e; pattern := pattern e;
     hinge := hinge e; antiRotation := antiRotation e; antiExtension := antiExtension e;
     compressiveLoad := compressiveLoad e; shearLoad := shearLoad e;
     lumbarStress := lumbarStress e; lumbarRisk := lumbarRisk e;
     allowedMaxBand := allowedMaxBand e |}.

(** [Array.prototype.sort] with comparator [a.lumbarRisk - b.lumbarRisk]
    (stable): an element is inserted into the sorted rest of the array, in
    front of the later elements of equal risk. *)
Fixpoint insertByRisk (x : classified) (l : list classified) : list classified :=
  match l with
  | [] => [x]
  | y :: l' => if (lumbarRisk x <=? lumbarRisk y)%Z then x :: l else y :: insertByRisk x l'
  end.

Fixpoint sortByRisk (l : list classified) : list classified :=
  match l with
  | [] => []
  | x :: l' => insertByRisk x (sortByRisk l')
  end.

(** Result [{ ok, exercise, note }]: [Some (exercise, note)] when [ok]. *)
Definition adaptResult := option (classified * option string).

(** [adaptNoAnchor(exClassified, allClassified)] ([allClassified] is an
    array in every call of the planner). *)
Definition adaptNoAnchor (ex : classified) (all : list classified) : adaptResult :=
  if negb (c_requiresAnchor ex) then Some (ex, None) else
  match rx_adaptedVersion (c_ex ex) with
  | Some av => Some (with_requiresAnchor_c (classify av) false,
                     Some "Variante no-anchor (adaptedVersion)")
  | None =>
  let byId :=
    match rx_adaptedId (c_ex ex) with
    | Some aid =>
        if String.eqb aid "" then None
        else find (fun e => match c_id e with Some i => String.eqb i aid | None => false end) all
    | None => None
    end in
  match byId with
  | Some found => Some (found, Some "Variante no-anchor (adaptedId)")
  | None =>
  let pool := filter (fun e => negb (c_requiresAnchor e)) all in
  let c1 := if antiRotation ex
            then filter (fun e => String.eqb (family e) "core" &&
                                  (antiRotation e || hasAny (c_name e) ["side plank"; "bird dog"; "dead bug"])) pool
            else [] in
  match c1 with
  | e :: _ => Some (e, Some "Sostituzione no-anchor (anti-rot)")
  | [] =>
  let c2 := if String.eqb (pattern ex) "pull"
            then filter (fun e => String.eqb (family e) "upper" &&
                                  hasAny (c_name e) ["row"; "rematore"; "pull-apart"; "high row"; "rear fly"; "face pull"]) pool
            else [] in
  match c2 with
  | e :: _ => Some (e, Some "Sostituzione no-anchor (pull)")
  | [] =>
  let c3 := if String.eqb (pattern ex) "push"
            then filter (fun e => hasAny (c_name e) ["push-up"; "floor press"; "press"; "pike push"; "shoulder press"]) pool
            else [] in
  match c3 with
  | e :: _ => Some (e, Some "Sostituzione no-anchor (push)")
  | [] =>
  let safe := sortByRisk (filter (fun e => String.eqb (family e) (family ex) && (lumbarRisk e <=? 2)%Z) pool) in
  match safe with
  | e :: _ => Some (e, Some "Sostituzione no-anchor (fallback safe)")
  | [] => None
  end end end end end end.

(** [getCues(exClassified)] *)
Definition getCues (ex : classified) : list string :=
  let cues := (TrainingKnowledge.universalCues ++ TrainingKnowledge.preSetChecklist
    ++ (if String.eqb (pattern ex) "hinge" then TrainingKnowledge.byPattern_hinge else [])
    ++ (if String.eqb (pattern ex) "pull" then TrainingKnowledge.byPattern_rowPull else [])
    ++ (if String.eqb (pattern ex) "push" then TrainingKnowledge.byPattern_push else [])
    ++ (if hasAny (c_name ex) ["plank"; "side plank"] then TrainingKnowledge.byPattern_plank else [])
    ++ (match rx_cues (c_ex ex) with Some l => l | None => [] end)
    ++ (match rx_note (c_ex ex) with Some n => if String.eqb n "" then [] else [n] | None => [] end))%list in
  slice0 10 (nonEmpty (dedup cues)).

(** [getWarnings(exClassified, ctx)] *)
Definition getWarnings (ex : classified) (runDay : bool) : list string :=
  let w := ((if isIsometric ex then ["Unità: secondi (tenuta). Qualità > durata."] else [])
    ++ (if hinge ex then ["Hinge: stop se perdi neutro lombare; riduci ROM/banda."] else [])
    ++ (if antiExtension ex then ["Anti-estensione: costole giù, evita iperestensione lombare."] else [])
    ++ (if antiRotation ex then ["Anti-rotazione: bacino fermo, niente compensi."] else [])
    ++ (if c_requiresAnchor ex then ["Richiede appiglio: usare variante no-anchor proposta."] else [])
    ++ TrainingKnowledge.cautionPatterns
    ++ (if runDay && hinge ex then ["Giorno corsa: hinge/hinge pesanti sconsigliati."] else []))%list in
  slice0 8 (dedup w).

End BiomechanicalAdapt.

(** ** SessionEngine v3.0 *)
Module SessionEngine.
Import StudyEngine Text BiomechanicalEngine BiomechanicalAdapt.
Local Open Scope string_scope.
Local Open Scope Z_scope.

(** *** Seeded generator *)

Definition u32 (z : Z) : Z := Z.land z (2 ^ 32 - 1).
(** [ToInt32] of a value given by its low 32 bits. *)
Definition toInt32 (x : Z) : Z := let u := u32 x in if u >=? 2 ^ 31 then u - 2 ^ 32 else u.

(** [hashStr(str)]: FNV-1a over the char codes, [Math.imul] and [^] taken
    on the low 32 bits; [(h >>> 0).toString(16)] read back by
    [parseInt(_, 16)] is the unsigned value itself. *)
Fixpoint hashLoop (h : Z) (s : string) : Z :=
  match s with
  | EmptyString => h
  | String c s' => hashLoop (u32 (Z.lxor h (Z.of_nat (nat_of_ascii c)) * 16777619)) s'
  end.

Definition hashStr (s : string) : Z := hashLoop 2166136261 s.

(** Initial state of [makeRng(seedStr)]: [0x811c9dc5 ^ parseInt(...)].
    The JS value is the signed int32 with these low 32 bits; every later
    operation reads only the low 32 bits. *)
Definition rngInit (seedStr : string) : Z := Z.lxor 2166136261 (hashStr seedStr).

(** One call of [rand()] (xorshift32; [x >> 17] is the arithmetic shift of
    the signed value); [rand()] returns [x / 2^32]. *)
Definition rngStep (x : Z) : Z :=
  let x := u32 (Z.lxor x (Z.shiftl x 13)) in
  let x := u32 (Z.lxor x (Z.shiftr (toInt32 x) 17)) in
  u32 (Z.lxor x (Z.shiftl x 5)).

(** [pickOne(arr, rand)], threading the generator state: an empty array
    returns [null] without calling [rand]; otherwise
    [Math.floor(rand() * arr.length)] is [(x * len) / 2^32] exactly. *)
Definition pickOne {A} (arr : list A) (x : Z) : option A * Z :=
  match arr with
  | [] => (None, x)
  | _ => let x' := rngStep x in
         (nth_error arr (Z.to_nat ((x' * Z.of_nat (List.length arr)) / 2 ^ 32)), x')
  end.

(** [a || pickOne(...)] *)
Definition orElse {A} (r : option A * Z) (k : Z -> option A * Z) : option A * Z :=
  match fst r with Some _ => r | None => k (snd r) end.

(** *** Selection *)

(** [/re/i.test(e.name)]: [undefined] is tested as the string "undefined". *)
Definition reTest (alts : list string) (name : option string) : bool :=
  hasAny (Some (match name with Some s => s | None => "undefined"%string end)) alts.

(** [ex.id || ex.name] *)
Definition key (e : classified) : option string :=
  match c_id e with
  | Some i => if String.eqb i ""%string then c_name e else Some i
  | None => c_name e
  end.

Definition has (used : list (option string)) (k : option string) : bool :=
  existsb (fun u => match u, k with
                    | Some a, Some b => String.eqb a b
                    | None, None => true
                    | _, _ => false
                    end) used.

Record chosen := mkChosen {
  ch_pull : option classified; ch_push : option classified; ch_posterior : option classified }.

Definition pullPoolOf (cands : list classified) : list classified :=
  filter (fun e => (String.eqb (pattern e) "pull" || String.eqb (family e) "upper") && negb (hinge e)) cands.

Definition pushPoolOf (cands : list classified) : list classified :=
  filter (fun e => (String.eqb (pattern e) "push" || String.eqb (family e) "upper") && negb (hinge e)) cands.

Definition postPoolOf (runDay : bool) (cands : list classified) : list classified :=
  if runDay then
    let p := filter (fun e => String.eqb (family e) "posterior" && negb (hinge e) && (lumbarRisk e <=? 2)
                              && reTest ["calf"; "polpacc"; "tibialis"; "cavigl"; "ankle"; "glute bridge"; "bridge"; "hip"] (c_name e))
                    cands in
    match p with
    | [] => filter (fun e => String.eqb (family e) "posterior" && negb (hinge e) && (lumbarRisk e <=? 2)) cands
    | _ => p
    end
  else
    let p := filter (fun e => String.eqb (family e) "posterior" || hinge e
                              || reTest ["glute"; "hip"; "calf"; "tibialis"; "hinge"; "deadlift"; "rdl"] (c_name e))
                    cands in
    match filter (fun e => lumbarRisk e <=? 2) p with
    | [] => p
    | safe => safe
    end.

(** [take(ex)]: the exercise if its key is new, recording the key. *)
Definition take (used : list (option string)) (ex : option classified)
  : option classified * list (option string) :=
  match ex with
  | None => (None, used)
  | Some e => if has used (key e) then (None, used) else (Some e, key e :: used)
  end.

(** [adapt(ex)] *)
Definition adapt (noAnchors : bool) (cands : list classified) (ex : option classified) : option classified :=
  match ex with
  | None => None
  | Some e =>
      if negb noAnchors then Some e else
      match adaptNoAnchor e cands with
      | Some (a, _) => Some a
      | None => Some e
      end
  end.

(** [chooseStrengthExercises(pool, targets, ctx, rand)];
    [filterNoAnchor] copies the pool in both cases. *)
Definition chooseStrengthExercises (pool : list classified) (c : ctx) (x0 : Z) : chosen * Z :=
  let candidates := pool in
  let pullPool := pullPoolOf candidates in
  let pushPool := pushPoolOf candidates in
  let postPool := postPoolOf (runDay c) candidates in
  let '(pull0, x1) := orElse (pickOne pullPool x0) (pickOne candidates) in
  let '(push0, x2) := orElse (pickOne pushPool x1) (pickOne candidates) in
  let '(post0, x3) := orElse (orElse (pickOne postPool x2)
                        (pickOne (filter (fun e => String.eqb (family e) "posterior") candidates)))
                        (pickOne candidates) in
  let '(t1, used1) := take [] pull0 in
  let '(pull1, x4) := orElse (t1, x3) (pickOne (filter (fun e => negb (has used1 (key e))) pullPool)) in
  let '(t2, used2) := take used1 push0 in
  let '(push1, x5) := orElse (t2, x4) (pickOne (filter (fun e => negb (has used2 (key e))) pushPool)) in
  let '(t3, used3) := take used2 post0 in
  let '(post1, x6) := orElse (t3, x5) (pickOne (filter (fun e => negb (has used3 (key e))) postPool)) in
  (mkChosen (adapt (noAnchors c) candidates pull1)
            (adapt (noAnchors c) candidates push1)
            (adapt (noAnchors c) candidates post1), x6).

(** *** Items and blocks *)

Record item := mkItem {
  i_kind : string; i_family : option string; i_id : option string;
  i_name : option string; i_pattern : option string; i_unit : string;
  i_sets : Z; i_reps : option Z; i_seconds : option Z; i_band : option Z;
  i_restSec : Z; i_tempo : option TrainingKnowledge.tempo; i_transitionSec : Z;
  i_cues : list string; i_warnings : list string; i_noAnchor : option bool;
  i_note : option string
}.

Definition with_sets (it : item) (n : Z) : item :=
  mkItem (i_kind it) (i_family it) (i_id it) (i_name it) (i_pattern it) (i_unit it) n
         (i_reps it) (i_seconds it) (i_band it) (i_restSec it) (i_tempo it)
         (i_transitionSec it) (i_cues it) (i_warnings it) (i_noAnchor it) (i_note it).

Definition with_restSec (it : item) (n : Z) : item :=
  mkItem (i_kind it) (i_family it) (i_id it) (i_name it) (i_pattern it) (i_unit it) (i_sets it)
         (i_reps it) (i_seconds it) (i_band it) n (i_tempo it)
         (i_transitionSec it) (i_cues it) (i_warnings it) (i_noAnchor it) (i_note it).

(** [estimateExerciseSeconds(item)] *)
Definition estimateExerciseSeconds (it : item) : Z :=
  let sets := orZ (i_sets it) 1 in
  let rest := orZ (i_restSec it) 0 in
  let transition := orZ (i_transitionSec it) 8 in
  let active :=
    if String.eqb (i_unit it) "seconds"%string
    then TrainingKnowledge.estimateHoldSeconds (match i_seconds it with Some s => s | None => 0 end)
    else TrainingKnowledge.estimateSetSeconds (match i_reps it with Some r => r | None => 0 end) (i_tempo it) in
  sets * active + Z.max 0 (sets - 1) * rest + transition.

Definition sumSeconds (l : list item) : Z :=
  fold_left (fun acc x => acc + estimateExerciseSeconds x) l 0.

(** The item built from a template example ([Math.round] of the integer
    mid-range is [(lo + hi + 1) / 2]). *)
Definition exampleItem (kind : string) (restSec : Z) (e : TrainingKnowledge.example) : item :=
  let mid := (TrainingKnowledge.range_lo e + TrainingKnowledge.range_hi e + 1) / 2 in
  mkItem kind None None (Some (TrainingKnowledge.item e)) None (TrainingKnowledge.unit e) 1
         (if String.eqb (TrainingKnowledge.unit e) "reps"%string then Some mid else None)
         (if String.eqb (TrainingKnowledge.unit e) "seconds"%string then Some mid else None)
         None restSec (Some TrainingKnowledge.defaultSeconds) 6 [] [] None None.

(** [targets.warmup] and [targets.mobility] are the objects
    [{ style, cycles }] and [{ style, count }] of [getTargets]: they are
    the templates, and they carry no [examples]. *)
Definition warmupExamples (t : targets) : list TrainingKnowledge.example := [].
Definition mobilityExamples (t : targets) : list TrainingKnowledge.example := [].

Definition buildWarmupBlock (t : targets) : list item :=
  map (exampleItem "warmup" 0) (firstn 3 (warmupExamples t)).

Definition buildMobilityBlock (t : targets) : list item :=
  map (exampleItem "mobility" 0) (firstn 2 (mobilityExamples t)).

(** [targets.coreControl] is undefined: the TrainingKnowledge template. *)
Definition buildCoreControlBlock : list item :=
  match TrainingKnowledge.coreControlExamples with
  | e :: _ => [exampleItem "core_control" 10 e]
  | [] => [exampleItem "core_control" 10 (TrainingKnowledge.mkExample "Plank" "seconds" 15 30)]
  end.

(** [targets.breathingCooldown] is undefined: the TrainingKnowledge
    protocol. *)
Definition buildCooldownBlock : list item :=
  let perPhase := (fst TrainingKnowledge.cooldownPerPhaseRange
                   + snd TrainingKnowledge.cooldownPerPhaseRange + 1) / 2 in
  let cycleSec := perPhase * Z.of_nat (List.length TrainingKnowledge.cooldownPhases) in
  [mkItem "cooldown" None None (Some "Respirazione diaframmatica (protocollo)"%string) None
          "seconds" 1 None (Some (cycleSec * 3)) None 0 None 0 [] [] None
          (Some ("Fasi: " ++ join " / " TrainingKnowledge.cooldownPhases ++ " — "
                 ++ zstr perPhase ++ "s ciascuna")%string)].

(** [safeTarget(t, fb)]: every field of a family target is a finite number. *)
Record safeT := mkSafeT { s_sets : Z; s_reps : Z; s_band : Z; s_rest : Z }.

Definition safeTarget (t : famTarget) : safeT :=
  mkSafeT (t_sets t) (t_reps t) (t_band t) (t_rest t).

(** [uniq(arr)] *)
Definition uniq (l : list string) : list string := dedup (nonEmpty l).

(** The context [validateExercise] sees: [{ ...ctx, band: t.band }]
    ([ctx] has no [deload] field). *)
Definition packCtx (c : ctx) (t : safeT) : vctx :=
  mkVctx (runDay c) (fasting c) false (Some (s_band t)).

(** [pack(ex, t, familyLabel)] *)
Definition pack (c : ctx) (ex : option classified) (t0 : safeT) (label : string) : option item :=
  match ex with
  | None => None
  | Some e =>
      let t := match validateExercise e (packCtx c t0) with
               | Reject _ =>
                   mkSafeT (Z.max 1 (orZ (s_sets t0) 2 - 1)) (s_reps t0)
                           (Z.min (s_band t0) (orZ (allowedMaxBand e) (s_band t0))) (s_rest t0)
               | Accept => t0
               end in
      let unit :=
        match rx_unit (c_ex e) with
        | Some u => if String.eqb u "" then
                      (if String.eqb (doseType e) TrainingKnowledge.SECONDS then "seconds" else "reps")
                    else u
        | None => if String.eqb (doseType e) TrainingKnowledge.SECONDS then "seconds" else "reps"
        end%string in
      Some (mkItem "strength" (Some label) (c_id e) (c_name e) (Some (pattern e)) unit (s_sets t)
                   (if String.eqb unit "reps" then Some (s_reps t) else None)
                   (if String.eqb unit "seconds" then Some 25 else None)
                   (if String.eqb unit "reps" then Some (s_band t) else None)
                   (s_rest t) (Some TrainingKnowledge.defaultSeconds) 10
                   (uniq (getCues e)) (uniq (getWarnings e (runDay c)))
                   (Some (noAnchors c)) None)
  end.

Definition optToList {A} (o : option A) : list A :=
  match o with Some a => [a] | None => [] end.

(** [buildStrengthBlock(exAll, targets, ctx, rand)] *)
Definition buildStrengthBlock (exAll : list classified) (tg : targets) (c : ctx) (x : Z)
  : list item * Z :=
  let '(ch, x') := chooseStrengthExercises exAll c x in
  ((optToList (pack c (ch_pull ch) (safeTarget (strength_pull tg)) "pull")
    ++ optToList (pack c (ch_push ch) (safeTarget (strength_push tg)) "push")
    ++ optToList (pack c (ch_posterior ch) (safeTarget (strength_posterior tg)) "posterior"))%list, x').

(** *** Time closure *)

Record blocks := mkBlocks {
  warmup : list item; mobility : list item; strength : list item;
  coreControl : list item; cooldown : list item }.

Definition with_strength (b : blocks) (s : list item) : blocks :=
  mkBlocks (warmup b) (mobility b) s (coreControl b) (cooldown b).

Definition totalSec (b : blocks) : Z :=
  sumSeconds (warmup b) + sumSeconds (mobility b) + sumSeconds (strength b)
  + sumSeconds (coreControl b) + sumSeconds (cooldown b).

(** [strength.find(p)], and the in-place update of the item found. *)
Definition findItem (p : item -> bool) (l : list item) : option item := find p l.

Fixpoint updateFirst (p : item -> bool) (f : item -> item) (l : list item) : list item :=
  match l with
  | [] => []
  | x :: l' => if p x then f x :: l' else x :: updateFirst p f l'
  end.

Definition isFamily (fam : string) (it : item) : bool :=
  match i_family it with Some f => String.eqb f fam | None => false end.

(** [addSet(fam, maxSets)]: the new strength list when a set is added. *)
Definition addSet (fam : string) (maxSets : Z) (l : list item) : option (list item) :=
  match findItem (isFamily fam) l with
  | None => None
  | Some it => if orZ (i_sets it) 1 >=? maxSets then None
               else Some (updateFirst (isFamily fam) (fun x => with_sets x (i_sets x + 1)) l)
  end.

Definition setsOf (fam : string) (l : list item) : Z :=
  match findItem (isFamily fam) l with Some it => i_sets it | None => 0 end.

(** [sec < targetSec * 0.92]: for the durations 25, 30 and 35 minutes the
    double [targetSec * 0.92] is the integer [92 * targetSec / 100]. *)
Fixpoint fillLoop (fuel : nat) (targetSec : Z) (b : blocks) : blocks :=
  match fuel with
  | O => b
  | S f =>
      if 100 * totalSec b <? 92 * targetSec then
        match addSet "pull" 6 (strength b) with
        | Some s => fillLoop f targetSec (with_strength b s)
        | None =>
        match addSet "push" 6 (strength b) with
        | Some s => fillLoop f targetSec (with_strength b s)
        | None =>
        let maxPost := Z.max 1 (floor12 (setsOf "pull" (strength b))) in
        match addSet "posterior" (Z.min 4 maxPost) (strength b) with
        | Some s => fillLoop f targetSec (with_strength b s)
        | None => b
        end end end
      else b
  end.

(** [fillStrengthIfTooShort(session, targetMinutes)] ([guard = 40]) *)
Definition fillStrengthIfTooShort (b : blocks) (targetMinutes : Z) : blocks :=
  fillLoop 40 (targetMinutes * 60) b.

(** [reduceSetsOfFamily(fam)] *)
Definition reduceSetsOfFamily (fam : string) (l : list item) : option (list item) :=
  match findItem (isFamily fam) l with
  | None => None
  | Some it => if orZ (i_sets it) 1 <=? 1 then None
               else Some (updateFirst (isFamily fam) (fun x => with_sets x (i_sets x - 1)) l)
  end.

Definition restAbove20 (it : item) : bool := 20 <? orZ (i_restSec it) 0.

Definition pop {A} (l : list A) : list A := firstn (pred (List.length l)) l.

Fixpoint closeLoop (fuel : nat) (targetSec : Z) (b : blocks) : blocks :=
  match fuel with
  | O => b
  | S f =>
      if targetSec <? totalSec b then
        match reduceSetsOfFamily "posterior" (strength b) with
        | Some s => closeLoop f targetSec (with_strength b s)
        | None =>
        match reduceSetsOfFamily "push" (strength b) with
        | Some s => closeLoop f targetSec (with_strength b s)
        | None =>
        match reduceSetsOfFamily "pull" (strength b) with
        | Some s => closeLoop f targetSec (with_strength b s)
        | None =>
        if 1 <? Z.of_nat (List.length (warmup b)) then
          closeLoop f targetSec (mkBlocks (pop (warmup b)) (mobility b) (strength b) (coreControl b) (cooldown b))
        else if 1 <? Z.of_nat (List.length (mobility b)) then
          closeLoop f targetSec (mkBlocks (warmup b) (pop (mobility b)) (strength b) (coreControl b) (cooldown b))
        else
        match findItem restAbove20 (strength b) with
        | Some _ => closeLoop f targetSec
                      (with_strength b (updateFirst restAbove20
                                          (fun x => with_restSec x (Z.max 20 (i_restSec x - 5))) (strength b)))
        | None => b
        end end end end
      else b
  end.

(** [closeToMinutes(session, targetMinutes)] ([guard = 50]) *)
Definition closeToMinutes (b : blocks) (targetMinutes : Z) : blocks :=
  closeLoop 50 (targetMinutes * 60) b.

(** *** Session-level validation (v2.1 [validateSession]) *)

(** The items built by [pack] have no [exercise] field. *)
Definition itemExercise (it : item) : option rawEx := None.

Definition validateSession (b : blocks) : list string :=
  let acc := fold_left (fun '(ps, qs, hc) it =>
               match itemExercise it with
               | None => (ps, qs, hc)
               | Some raw =>
                   let ex := classify raw in
                   let sets := i_sets it in
                   (if String.eqb (family ex) "upper" then ps + sets else ps,
                    if String.eqb (family ex) "posterior" then qs + sets else qs,
                    if hinge ex then hc + 1 else hc)
               end) (strength b) (0, 0, 0) in
  let '(pullSets, posteriorSets, hingeCount) := acc in
  let warn := ((if (0 <? pullSets) && (6 * pullSets <? 5 * posteriorSets) then
                 ["Posterior overload: riduci posterior/hinge o aumenta tirate upper."%string] else [])
              ++ (if 2 <? hingeCount then ["Troppi hinge nella sessione: limitare a 2."%string] else [])
              ++ TrainingKnowledge.stopRules)%list in
  slice0 10 (dedup warn).

(** *** Generation *)

Record meta := mkMeta {
  m_version : string; m_dayKey : string; m_minutes : Z; m_runDay : bool;
  m_fasting : bool; m_rpe3 : Z; m_deload : bool; m_mult : R; m_seed : string;
  m_sessionWarnings : list string; m_estimatedSeconds : Z
  (* [estimatedMinutes] is [Number((estimatedSeconds / 60).toFixed(1))],
     a function of [estimatedSeconds]. *)
}.

Record session := mkSession { s_meta : meta; s_targets : targets; s_blocks : blocks }.

(** The seed string [[dayKey, minutes, run, fast, rpe3, anchor].join("|")]. *)
Definition seedStr (dayKey : string) (c : ctx) : string :=
  join "|" [dayKey; zstr (minutes c);
            if runDay c then "run" else "norun";
            if fasting c then "fast" else "nofast";
            zstr (rpe3 c);
            if noAnchors c then "noanchor" else "anchor"]%string.

Definition classifyAll (db : list rawEx) : list classified := map classify db.

(** The body of [generateSession] once [st = StudyEngine.getState()] and
    [ctx] are read; [targets.meta] has no [dayKey], so the seed uses
    [todayISO()], the same [today] as the context's day key. *)
Definition generateFromContext (st : state) (today : string) (db : list rawEx) (c : ctx) : session :=
  let tg := getTargets st c in
  let seed := seedStr today c in
  let x0 := rngInit seed in
  let exAll := classifyAll db in
  let warm := buildWarmupBlock tg in
  let mob := buildMobilityBlock tg in
  let coreCtrl := buildCoreControlBlock in
  let cool := buildCooldownBlock in
  let strengthItems := fst (buildStrengthBlock exAll tg c x0) in
  let b0 := mkBlocks warm mob strengthItems coreCtrl cool in
  let b1 := fillStrengthIfTooShort b0 (minutes c) in
  let b2 := closeToMinutes b1 (minutes c) in
  let mult := meta_mult tg in
  mkSession (mkMeta "3.0" today (minutes c) (runDay c) (fasting c) (rpe3 c) (meta_deload tg)
                    (if Req_dec_T mult 0 then 1%R else mult) seed
                    (validateSession b2) (totalSec b2))
            tg b2.

(** [SessionEngine.generateSession(exerciseDB, userFlags)] on the stored
    state [st] and the day [today]. *)
Definition generateSession (st : state) (today : string) (db : list rawEx) (flags : userFlags) : session :=
  generateFromContext st today db (getContextForToday today flags).

End SessionEngine.

(** ** SessionEngine v3.0: the today-session cache and completion *)
Module SessionStore.
Import StudyEngine Text SessionEngine.
Local Open Scope string_scope.
Local Open Scope Z_scope.

Definition LS_TODAY_PREFIX : string := "palestra_session_today_v3_".

Definition bit (b : bool) : string := if b then "1" else "0".

(** [`${dayKey}_${ctx.minutes}_${runDay}${fasting}${ctx.rpe3}${noAnchors}`] *)
Definition todayKeyBase (dayKey : string) (c : ctx) : string :=
  dayKey ++ "_" ++ zstr (minutes c) ++ "_" ++ bit (runDay c) ++ bit (fasting c)
  ++ zstr (rpe3 c) ++ bit (noAnchors c).

(** [todayKeyFromFlags(flags)]: [ctx.dayKey || todayISO()] is [today]. *)
Definition todayKeyFromFlags (today : string) (flags : userFlags) : string :=
  let c := getContextForToday today flags in
  LS_TODAY_PREFIX ++ todayKeyBase (orS (Some (dayKey c)) today) c.

(** The browser storage as the sessions it holds per key: a stored value
    is the [JSON.stringify] of a session, read back by [jparse]. *)
Definition store := string -> option session.

Definition storeSet (s : store) (k : string) (v : session) : store :=
  fun k' => if String.eqb k' k then Some v else s k'.

(** [getOrCreateTodaySession(exerciseDB, userFlags)] on the stored state
    [st]: the session returned and the storage afterwards. *)
Definition getOrCreateTodaySession (s : store) (st : state) (today : string)
    (db : list BiomechanicalEngine.rawEx) (flags : userFlags) : session * store :=
  let key := todayKeyFromFlags today flags in
  let expectedDay := orS (Some (dayKey (getContextForToday today flags))) today in
  match s key with
  | Some cached =>
      if String.eqb (m_dayKey (s_meta cached)) expectedDay then (cached, s)
      else let sess := generateSession st today db flags in (sess, storeSet s key sess)
  | None => let sess := generateSession st today db flags in (sess, storeSet s key sess)
  end.

(** [resultPayload.repsDone]: [Number(repsDone.f || 0)] per family. *)
Record payload := mkPayload { rd_pull : Z; rd_push : Z; rd_posterior : Z }.

(** [completeWorkout(session, resultPayload)]: the new state it computes
    (and saves) from the loaded state [st]. The summary it builds has the
    keys [pull], [push], [posterior] and [core: 0]; the history and export
    entries it appends to the storage are not modelled. *)
Definition completeWorkout (today : string) (st : state) (sess : session) (p : payload) : state :=
  applySessionResult today st
    (mkResult (Some (m_dayKey (s_meta sess))) (m_rpe3 (s_meta sess))
              (mkSummary 0 (rd_pull p) 0 (rd_push p) 0 (rd_posterior p) 0)).

End SessionStore.

(** ** How the time closure may change a strength item *)
Module SessionTrim.
Import SessionEngine.
Local Open Scope string_scope.
Local Open Scope Z_scope.

(** How one pass of [fillStrengthIfTooShort] may change a strength item:
    only its sets, which grow up to 6 (4 for posterior). *)
Definition fillRel (x y : item) : Prop :=
  y = with_sets x (i_sets y) /\
  i_sets x <= i_sets y <= Z.max (i_sets x) (if isFamily "posterior" x then 4 else 6).

(** How [closeToMinutes] may change a strength item: its sets and its
    rest, each lowered at most to a floor (one set, 20 s of rest). *)
Definition closeRel (x y : item) : Prop :=
  y = with_restSec (with_sets x (i_sets y)) (i_restSec y) /\
  Z.min (i_sets x) 1 <= i_sets y <= i_sets x /\
  Z.min (i_restSec x) 20 <= i_restSec y <= i_restSec x.

End SessionTrim.

(** ** Sample inputs *)
Module Examples.
Import StudyEngine BiomechanicalEngine.
Local Open Scope string_scope.

Definition jumpSquat : rawEx :=
  mkRaw (Some "jump-squat"%string) (Some "Jump squat"%string) None None None None None None
        (Some "plyometric"%string) false false false None None None None None None.

Definition bandedRow : BiomechanicalEngineV3.classified :=
  BiomechanicalEngineV3.mkClassified "pull" "upper" 1 1 1.

(** A catalog with one movement, a Romanian deadlift. *)
Definition rdlEntry : rawEx := named "rdl" "Romanian deadlift".

Definition runDayFlags : userFlags := mkFlags (Some 25) true false 2 (Some false) None.
Definition fastingFlags : userFlags := mkFlags (Some 25) false true 2 (Some false) None.

End Examples.

(** ** Further sample inputs *)
Module MoreExamples.
Import StudyEngine Persist BiomechanicalEngine BiomechanicalAdapt SessionEngine SessionStore Examples.
Local Open Scope string_scope.
Local Open Scope Z_scope.

(** A state whose last completion is [day0], on a four-day streak. *)
Definition streakState : state := {|
  version := "3.1"; week := 1; sessionInWeek := 0; streak := 4;
  lastCompletedDay := Some "2026-10-17"; hardSessionsInRow := 0; deloadArmed := false;
  prog := prog defaultState |}.

(** A result logged for day [d] with effort [rpe], no reps recorded. *)
Definition dayResult (d : string) (rpe : Z) : result := mkResult (Some d) rpe (mkSummary 0 0 0 0 0 0 0).

(** Two movements flagged as needing an anchor, and two small catalogs. *)
Definition anchoredRow : classified := classify (with_requiresAnchor (named "arow" "Anchored row") (Some true)).

Definition anchoredRdl : classified := classify (with_requiresAnchor (named "ardl" "Romanian deadlift") (Some true)).

Definition rowCatalog : list classified := classifyAll [named "b" "Band row"; named "gb" "Glute bridge"].

Definition hingeCatalog : list classified :=
  classifyAll [rdlEntry; named "hip" "Hip thrust"; named "gb" "Glute bridge"].

(** A catalog with one exercise per strength family (and one more posterior). *)
Definition strengthPool : list classified :=
  classifyAll [named "row" "Band row"; named "pu" "Push-up"; rdlEntry; named "gb" "Glute bridge"].

(** The context of a fasting day with no-anchor adaptation off, and the
    choice [chooseStrengthExercises] makes from [strengthPool] with seed 7. *)
Definition fastingCtx : ctx := getContextForToday day0 fastingFlags.

Definition chosenW : chosen * Z := Eval vm_compute in chooseStrengthExercises strengthPool fastingCtx 7.

(** The run-day flags with an unsupported duration (40 minutes). *)
Definition flags40 : userFlags := mkFlags (Some 40) true false 2 (Some false) None.

End MoreExamples.

(* ================================================================== *)
(** * Theorems *)
(* ================================================================== *)

Module StudyEngineFacts.
Import StudyEngine.

Lemma apply_deloadArmed today st r :
  deloadArmed (applySessionResult today st r) = false.
Proof.
  unfold applySessionResult; cbn.
  destruct (_ >=? 2); [reflexivity|]. destruct (deloadArmed st); reflexivity.
Qed.

Lemma apply_I1 today st r : I1 (applySessionResult today st r).
Proof. unfold I1, applySessionResult; cbn. lia. Qed.

(** C1: from any state (in particular [defaultState]), every state persisted
    by [applySessionResult] along any sequence of results satisfies I1:
    [posterior.setBase <= max(1, floor(pull.setBase * 1.2))]. *)
Theorem trace_I1 : forall today st rs, Forall I1 (trace today st rs).
Proof.
  intros today st rs; revert st.
  induction rs as [|r rs IH]; intros st; cbn; constructor.
  - apply apply_I1.
  - apply IH.
Qed.

(** C10: whatever the input state (also with [deloadArmed = true]) and the
    result, the state returned by [applySessionResult] has
    [deloadArmed = false]. *)
Theorem applySessionResult_deloadArmed_false :
  forall today st r, deloadArmed (applySessionResult today st r) = false.
Proof. exact apply_deloadArmed. Qed.

Lemma apply_sessionInWeek today st r :
  sessionInWeek (applySessionResult today st r) = Z.rem (sessionInWeek st + 1) 3.
Proof. reflexivity. Qed.

Lemma apply_week today st r :
  week (applySessionResult today st r) =
  if Z.rem (sessionInWeek st + 1) 3 =? 0 then week st + 1 else week st.
Proof. reflexivity. Qed.

(** C5: from a state with [sessionInWeek = 0], the first and second
    completions leave [week] unchanged and the third increments it by one
    and brings [sessionInWeek] back to 0. *)
Theorem week_advances_after_three :
  forall today st r1 r2 r3,
    sessionInWeek st = 0 ->
    let s1 := applySessionResult today st r1 in
    let s2 := applySessionResult today s1 r2 in
    let s3 := applySessionResult today s2 r3 in
    week s1 = week st /\ week s2 = week st /\ week s3 = week st + 1 /\
    sessionInWeek s1 = 1 /\ sessionInWeek s2 = 2 /\ sessionInWeek s3 = 0.
Proof.
  intros today st r1 r2 r3 H0 s1 s2 s3.
  subst s1 s2 s3.
  repeat rewrite ?apply_week, ?apply_sessionInWeek. rewrite H0.
  cbn. repeat split; lia.
Qed.

Lemma week_advances_after_three_witness :
  let r := mkResult (Some "2026-10-17"%string) 2 (mkSummary 0 0 0 0 0 0 0) in
  sessionInWeek defaultState = 0 /\
  (let s1 := applySessionResult "2026-10-17" defaultState r in
   let s2 := applySessionResult "2026-10-17" s1 r in
   let s3 := applySessionResult "2026-10-17" s2 r in
   week s1 = week defaultState /\ week s2 = week defaultState /\
   week s3 = week defaultState + 1 /\
   sessionInWeek s1 = 1 /\ sessionInWeek s2 = 2 /\ sessionInWeek s3 = 0).
Proof.
  intros r. split; [reflexivity|].
  exact (week_advances_after_three "2026-10-17" defaultState r r r eq_refl).
Defined.

(** C4 (code evidence): from [defaultState], two consecutive "hard"
    results arm the deload inside the second call, which clears it before
    returning: the state between the second and third calls has
    [deloadArmed = false], and the next [getTargets] applies no deload. *)

Theorem two_hard_results_leave_deload_unarmed :
  let s2 := applySessionResult "2026-10-17" (applySessionResult "2026-10-17" defaultState hardResult) hardResult in
  hardSessionsInRow s2 = 2 /\ deloadArmed s2 = false /\
  forall c, meta_deload (getTargets s2 c) = false.
Proof.
  intros s2. split; [reflexivity|]. split; [reflexivity|].
  intros c. change (meta_deload (getTargets s2 c)) with (deloadOf s2).
  reflexivity.
Qed.

(** A successful non-deload result on a rep family at the top of the rep
    menu. *)
Lemma advance_top_success rpe p reps :
  repIndex p = 6 -> rpe <> RPE3_HARD -> reps >= 20 ->
  advanceRepFamily false rpe p reps =
  if (band p =? 15) || (band p =? 25)
  then mkRepFam 2 (band p + 10) (setBase p)
  else mkRepFam 6 (band p) (clamp (setBase p + 1) 2 5).
Proof.
  intros Hi Hr Hreps. destruct p as [i b sb]; cbn in Hi; subst i.
  unfold advanceRepFamily; cbn [repIndex band setBase].
  change (at_ REP_MENU (clamp 6 0 6)) with 20.
  replace (reps >=? 20) with true by lia.
  replace (rpe =? RPE3_HARD) with false by (unfold RPE3_HARD in *; lia).
  change (6 <? 6) with false. cbn [andb negb].
  unfold progressBandIfPossible; cbn [band setBase].
  destruct (Z.eqb_spec 15 b); [subst; reflexivity|].
  destruct (Z.eqb_spec 25 b); [subst; reflexivity|].
  destruct (Z.eqb_spec 35 b); [subst; reflexivity|].
  unfold BAND_MENU; cbn [indexOf].
  replace (15 =? b) with false by lia. replace (25 =? b) with false by lia.
  replace (35 =? b) with false by lia.
  replace (b =? 15) with false by lia. replace (b =? 25) with false by lia.
  reflexivity.
Qed.

Lemma apply_pull_success today st r :
  deloadArmed st = false -> effortOf r <> RPE3_HARD -> pullRepsOf r >= 20 ->
  repIndex (pull (prog st)) = 6 ->
  pull (prog (applySessionResult today st r)) =
  advanceRepFamily false (effortOf r) (pull (prog st)) (pullRepsOf r).
Proof.
  intros Hd He Hr Hi. unfold applySessionResult; cbn -[advanceRepFamily].
  fold (effortOf r). fold (pullRepsOf r).
  replace (effortOf r =? RPE3_HARD) with false by (unfold RPE3_HARD in *; lia).
  rewrite Hd. reflexivity.
Qed.

(** C7 (amended): for a rep family (pull, push or posterior) at the top of
    the rep menu, a successful non-deload result either moves the band to
    the next menu entry and resets [repIndex] to 2 (12 reps), or, with the
    band already at the top (or not in the menu), increments [setBase]
    clamped to [2..5]; for posterior that set base is then capped at
    [max(1, floor(1.2 * pull.setBase))] with the pull set base of the same
    call. From [pull = {repIndex 6, band 35, setBase 3}], three successes
    give pull's [setBase] 4, 5, 5. *)
Theorem pull_top_success_progression :
  (forall today st r,
     deloadArmed st = false -> effortOf r <> RPE3_HARD ->
     let step (p : repFam) :=
       if (band p =? 15) || (band p =? 25)
       then mkRepFam 2 (band p + 10) (setBase p)
       else mkRepFam 6 (band p) (clamp (setBase p + 1) 2 5) in
     let P := prog st in
     let P' := prog (applySessionResult today st r) in
     (repIndex (pull P) = 6 -> pullRepsOf r >= 20 -> pull P' = step (pull P)) /\
     (repIndex (push P) = 6 -> pushRepsOf r >= 20 -> push P' = step (push P)) /\
     (repIndex (posterior P) = 6 -> posteriorRepsOf r >= 20 ->
        let q := step (posterior P) in
        posterior P' =
        mkRepFam (repIndex q) (band q) (Z.min (setBase q) (Z.max 1 (floor12 (setBase (pull P'))))))) /\
  (forall today st r1 r2 r3,
      deloadArmed st = false -> pull (prog st) = mkRepFam 6 35 3 ->
      Forall (fun r => effortOf r <> RPE3_HARD /\ pullRepsOf r >= 20) [r1; r2; r3] ->
      map (fun s => setBase (pull (prog s))) (trace today st [r1; r2; r3]) = [4; 5; 5]).
Proof.
  split.
  - intros today st r Hd He step P P'.
    assert (E : prog (applySessionResult today st r) =
      let pull' := advanceRepFamily false (effortOf r) (pull (prog st)) (pullRepsOf r) in
      let post' := advanceRepFamily false (effortOf r) (posterior (prog st)) (posteriorRepsOf r) in
      {| pull := pull';
         push := advanceRepFamily false (effortOf r) (push (prog st)) (pushRepsOf r);
         posterior := {| repIndex := repIndex post'; band := band post';
                         setBase := Z.min (setBase post') (Z.max 1 (floor12 (setBase pull'))) |};
         core := advanceCore (effortOf r) (core (prog st)) |}).
    { unfold applySessionResult; cbn -[advanceRepFamily advanceCore].
      fold (effortOf r). fold (pullRepsOf r). fold (pushRepsOf r). fold (posteriorRepsOf r).
      replace (effortOf r =? RPE3_HARD) with false by (unfold RPE3_HARD in *; lia).
      rewrite Hd. reflexivity. }
    subst P'. rewrite E. cbv zeta. cbn [pull push posterior].
    split; [|split].
    + intros Hi Hr. apply advance_top_success; assumption.
    + intros Hi Hr. apply advance_top_success; assumption.
    + intros Hi Hr. rewrite (advance_top_success _ (posterior (prog st))) by assumption.
      reflexivity.
  - intros today st r1 r2 r3 Hd Hp Hall.
    inversion Hall as [|? ? [He1 Hr1] Hall2]; subst.
    inversion Hall2 as [|? ? [He2 Hr2] Hall3]; subst.
    inversion Hall3 as [|? ? [He3 Hr3] _]; subst.
    assert (H1 : pull (prog (applySessionResult today st r1)) = mkRepFam 6 35 4).
    { rewrite (apply_pull_success today st r1 Hd He1 Hr1) by (rewrite Hp; reflexivity).
      rewrite Hp, advance_top_success by auto. reflexivity. }
    assert (H2 : pull (prog (applySessionResult today (applySessionResult today st r1) r2))
                 = mkRepFam 6 35 5).
    { rewrite (apply_pull_success today _ r2 (apply_deloadArmed _ _ _) He2 Hr2)
        by (rewrite H1; reflexivity).
      rewrite H1, advance_top_success by auto. reflexivity. }
    assert (H3 : pull (prog (applySessionResult today
                   (applySessionResult today (applySessionResult today st r1) r2) r3))
                 = mkRepFam 6 35 5).
    { rewrite (apply_pull_success today _ r3 (apply_deloadArmed _ _ _) He3 Hr3)
        by (rewrite H2; reflexivity).
      rewrite H2, advance_top_success by auto. reflexivity. }
    cbn [trace map]. rewrite H1, H2, H3. reflexivity.
Qed.

Lemma pull_top_success_progression_witness :
  pull (prog (applySessionResult day0 topState15 successResult)) = mkRepFam 2 25 3 /\
  posterior (prog (applySessionResult day0 topPosteriorState posteriorSuccessResult)) =
    mkRepFam 6 35 3 /\
  map (fun s => setBase (pull (prog s))) (trace day0 topState35
         [successResult; successResult; successResult]) = [4; 5; 5].
Proof.
  split; [|split].
  - exact (proj1 (proj1 pull_top_success_progression day0 topState15 successResult eq_refl
             ltac:(unfold effortOf, RPE3_HARD; cbn; lia)) eq_refl
             ltac:(unfold pullRepsOf; cbn; lia)).
  - rewrite (proj2 (proj2 (proj1 pull_top_success_progression day0 topPosteriorState
             posteriorSuccessResult eq_refl ltac:(unfold effortOf, RPE3_HARD; cbn; lia)))
             eq_refl ltac:(unfold posteriorRepsOf; cbn; lia)).
    vm_compute. reflexivity.
  - apply (proj2 pull_top_success_progression day0 topState35); [reflexivity|reflexivity|].
    repeat constructor; unfold effortOf, pullRepsOf, RPE3_HARD; cbn; lia.
Defined.

(** C7 (counterexample): from pull [{repIndex 6, band 15}] a successful
    result promotes the band to 25 but resets [repIndex] to 2, not to the
    middle index 3 of the seven-entry rep menu. *)
Lemma band_promotion_resets_to_index_2 :
  let p' := pull (prog (applySessionResult day0 topState15 successResult)) in
  band p' = 25 /\ repIndex p' = 2 /\ repIndex p' <> repMenuMiddle.
Proof. cbv zeta. vm_compute. split; [reflexivity|]. split; [reflexivity|discriminate]. Qed.

End StudyEngineFacts.

Module TargetsFacts.
Import StudyEngine.

(** C6 (counterexample): a requested duration of 40 minutes is not
    rejected: the context builder silently replaces it by 25, and the
    targets are those of a 25-minute session. *)
Lemma unsupported_duration_is_substituted :
  let c40 := getContextForToday day0 (flagsMinutes (Some 40)) in
  minutes c40 = 25 /\
  getTargets defaultState c40 =
  getTargets defaultState (getContextForToday day0 (flagsMinutes (Some 25))).
Proof.
  cbv zeta. split; [reflexivity|].
  assert (E : getContextForToday day0 (flagsMinutes (Some 40)) =
              getContextForToday day0 (flagsMinutes (Some 25))) by reflexivity.
  rewrite E. reflexivity.
Qed.

(** C6 (amended): no error path exists; the context builder always yields
    a supported duration, keeping 25/30/35 and replacing any other
    requested duration (or none) by 25; [getTargets] is a total function
    of the state and the context. *)
Theorem context_duration_kept_or_defaulted :
  forall today flags,
    let c := getContextForToday today flags in
    (minutes c = 25 \/ minutes c = 30 \/ minutes c = 35) /\
    (forall m, f_minutes flags = Some m -> m = 25 \/ m = 30 \/ m = 35 -> minutes c = m) /\
    (forall m, f_minutes flags = Some m -> m <> 25 -> m <> 30 -> m <> 35 -> minutes c = 25) /\
    (f_minutes flags = None -> minutes c = 25).
Proof.
  intros today flags c. subst c. unfold getContextForToday; cbn [minutes].
  destruct (f_minutes flags) as [m0|] eqn:Em.
  - destruct (Z.eqb_spec m0 35); destruct (Z.eqb_spec m0 30);
      destruct (Z.eqb_spec m0 25); cbn [orb];
      (split; [lia|]); (split; [intros m Hm; injection Hm as <-; intros; lia|]);
      (split; [intros m Hm; injection Hm as <-; intros; lia|]); discriminate.
  - split; [lia|]. split; [intros; discriminate|]. split; [intros; discriminate|].
    reflexivity.
Qed.

Lemma context_duration_kept_or_defaulted_witness :
  minutes (getContextForToday day0 (flagsMinutes (Some 40))) = 25 /\
  minutes (getContextForToday day0 (flagsMinutes (Some 30))) = 30.
Proof.
  split.
  - exact (proj1 (proj2 (proj2 (context_duration_kept_or_defaulted day0
             (flagsMinutes (Some 40))))) 40 eq_refl
             ltac:(discriminate) ltac:(discriminate) ltac:(discriminate)).
  - exact (proj1 (proj2 (context_duration_kept_or_defaulted day0
             (flagsMinutes (Some 30)))) 30 eq_refl ltac:(lia)).
Defined.

(** The state [loadState] rebuilds from the saved JSON of [st]. *)
Lemma load_save st :
  Persist.loadState (Some (Persist.saveState st)) =
  Some {| version := orS (Some (version st)) "3.1"; week := week st;
          sessionInWeek := sessionInWeek st; streak := streak st;
          lastCompletedDay := lastCompletedDay st;
          hardSessionsInRow := hardSessionsInRow st; deloadArmed := deloadArmed st;
          prog := prog st |}.
Proof.
  destruct st as [v w siw sk l h d [[pi pb ps] [ui ub us] [oi ob os] [hs cs]]].
  destruct l as [l|]; cbn; destruct d; reflexivity.
Qed.

(** C9: saving a state as JSON and loading it back gives a state on which
    [getTargets] returns exactly the targets of the original state, for
    every context. *)
Theorem save_load_same_targets :
  forall st c, exists st',
    Persist.loadState (Some (Persist.saveState st)) = Some st' /\
    getTargets st' c = getTargets st c.
Proof.
  intros st c. eexists. split; [apply load_save|]. reflexivity.
Qed.

End TargetsFacts.

Module BiomechanicalFacts.
Import BiomechanicalEngine Examples.

(** C8 (counterexample). Neither validation gate has all four rules. The
    v2.1 [validateExercise] (the one the session planner calls) accepts a
    movement classified with pattern "plyometric" during a deload (with
    runDay and fasting also set), and the v3.0 [validateExercise] accepts a
    requested band of 45 far above any cap, since it reads no band. *)
Lemma validate_rules_differ_between_versions :
  pattern (classify jumpSquat) = "plyometric"%string /\
  validateExercise (classify jumpSquat) (mkVctx true true true None) = Accept /\
  BiomechanicalEngineV3.validateExercise bandedRow (mkVctx false false false (Some 45)) = Accept /\
  45 > allowedMaxBand (classify (named "row" "Band row")).
Proof. vm_compute. repeat split; discriminate. Qed.

(** The two directions of the rejection test of each version, one rule at
    a time. *)
Lemma validateExercise_reject_cases :
  (forall ex c,
     verdict_ok (validateExercise ex c) = false <->
     (vc_fasting c = true /\ compressiveLoad ex > 1) \/
     (vc_runDay c = true /\ hinge ex = true) \/
     (exists b, vc_band c = Some b /\ b > allowedMaxBand ex)) /\
  (forall ex c,
     verdict_ok (BiomechanicalEngineV3.validateExercise ex c) = false <->
     (vc_runDay c = true /\ BiomechanicalEngineV3.pattern ex = "hinge"%string) \/
     (vc_fasting c = true /\ BiomechanicalEngineV3.compressiveLoad ex > 1) \/
     (vc_deload c = true /\ BiomechanicalEngineV3.pattern ex = "plyometric"%string)).
Proof.
  split; intros ex [rd fa dl bd].
  - unfold validateExercise; simpl.
    destruct fa eqn:Ef; destruct (compressiveLoad ex >? 1) eqn:Ec;
    destruct rd eqn:Er; destruct (hinge ex) eqn:Eh; simpl;
    try (destruct bd as [b|]; [destruct (b >? allowedMaxBand ex) eqn:Eb|]);
    simpl; split; intros H; try discriminate; try tauto;
    repeat match goal with
           | H : _ \/ _ |- _ => destruct H
           | H : _ /\ _ |- _ => destruct H
           | H : exists _, _ |- _ => destruct H
           | H : Some _ = Some _ |- _ => injection H as <-
           | H : None = Some _ |- _ => discriminate H
           | H : false = true |- _ => discriminate H
           | H : true = false |- _ => discriminate H
           end;
    rewrite ?Z.gtb_ltb, ?Z.ltb_lt, ?Z.ltb_ge in *; try lia;
    try (left; split; [reflexivity | lia]);
    try (right; left; split; reflexivity);
    try (right; right; eexists; split; [reflexivity | lia]).
  - unfold BiomechanicalEngineV3.validateExercise; simpl.
    destruct rd, fa, dl; simpl;
    destruct (String.eqb_spec (BiomechanicalEngineV3.pattern ex) "hinge");
    destruct (BiomechanicalEngineV3.compressiveLoad ex >? 1) eqn:Ec;
    destruct (String.eqb_spec (BiomechanicalEngineV3.pattern ex) "plyometric");
    simpl; rewrite ?Z.gtb_ltb, ?Z.ltb_lt, ?Z.ltb_ge in *;
    split; intros H; try discriminate; try tauto;
    repeat match goal with
           | H : _ \/ _ |- _ => destruct H
           | H : _ /\ _ |- _ => destruct H
           | H : false = true |- _ => discriminate H
           end; try congruence; try lia;
    try (left; split; [reflexivity | assumption]);
    try (right; left; split; [reflexivity | lia]);
    try (right; right; split; [reflexivity | assumption]).
Qed.

(** The reason each version gives when a rule fires and no earlier rule
    (in the order of the code) has. *)
Lemma validateExercise_reasons :
  ((forall ex c,
      vc_fasting c = true -> compressiveLoad ex > 1 ->
      validateExercise ex c = Reject "Fasting: esercizio troppo compressivo"%string) /\
   (forall ex c,
      ~ (vc_fasting c = true /\ compressiveLoad ex > 1) ->
      vc_runDay c = true -> hinge ex = true ->
      validateExercise ex c = Reject "Run day: hinge escluso"%string) /\
   (forall ex c b,
      ~ (vc_fasting c = true /\ compressiveLoad ex > 1) ->
      ~ (vc_runDay c = true /\ hinge ex = true) ->
      vc_band c = Some b -> b > allowedMaxBand ex ->
      validateExercise ex c = Reject "Banda troppo alta per esercizio"%string)) /\
  ((forall ex c,
      vc_runDay c = true -> BiomechanicalEngineV3.pattern ex = "hinge"%string ->
      BiomechanicalEngineV3.validateExercise ex c = Reject "Run day: hinge escluso"%string) /\
   (forall ex c,
      ~ (vc_runDay c = true /\ BiomechanicalEngineV3.pattern ex = "hinge"%string) ->
      vc_fasting c = true -> BiomechanicalEngineV3.compressiveLoad ex > 1 ->
      BiomechanicalEngineV3.validateExercise ex c = Reject "Fasting: carico compressivo alto"%string) /\
   (forall ex c,
      ~ (vc_runDay c = true /\ BiomechanicalEngineV3.pattern ex = "hinge"%string) ->
      ~ (vc_fasting c = true /\ BiomechanicalEngineV3.compressiveLoad ex > 1) ->
      vc_deload c = true -> BiomechanicalEngineV3.pattern ex = "plyometric"%string ->
      BiomechanicalEngineV3.validateExercise ex c = Reject "Deload: plyometric escluso"%string)).
Proof.
  split; (split; [|split]); intros ex [rd fa dl bd]; cbn [vc_runDay vc_fasting vc_deload vc_band].
  - intros -> Hc. unfold validateExercise; cbn [vc_fasting].
    replace (compressiveLoad ex >? 1) with true by lia. reflexivity.
  - intros Hf -> Hh. unfold validateExercise; cbn [vc_fasting vc_runDay].
    replace (fa && (compressiveLoad ex >? 1)) with false
      by (destruct fa; [destruct (Z.gtb_spec (compressiveLoad ex) 1); [exfalso; apply Hf; split; [reflexivity|lia]|]|]; reflexivity).
    rewrite Hh. reflexivity.
  - intros b Hf Hr -> Hb. unfold validateExercise; cbn [vc_fasting vc_runDay vc_band].
    replace (fa && (compressiveLoad ex >? 1)) with false
      by (destruct fa; [destruct (Z.gtb_spec (compressiveLoad ex) 1); [exfalso; apply Hf; split; [reflexivity|lia]|]|]; reflexivity).
    replace (rd && hinge ex) with false
      by (destruct rd; [destruct (hinge ex) eqn:Eh; [exfalso; apply Hr; split; reflexivity|]|]; reflexivity).
    replace (b >? allowedMaxBand ex) with true by lia. reflexivity.
  - intros -> Hp. unfold BiomechanicalEngineV3.validateExercise; cbn [vc_runDay].
    rewrite Hp. reflexivity.
  - intros Hh -> Hc. unfold BiomechanicalEngineV3.validateExercise; cbn [vc_runDay vc_fasting].
    replace (rd && String.eqb (BiomechanicalEngineV3.pattern ex) "hinge") with false
      by (destruct rd; [destruct (String.eqb_spec (BiomechanicalEngineV3.pattern ex) "hinge");
                        [exfalso; apply Hh; split; [reflexivity|assumption]|]|]; reflexivity).
    replace (BiomechanicalEngineV3.compressiveLoad ex >? 1) with true by lia. reflexivity.
  - intros Hh Hf -> Hp. unfold BiomechanicalEngineV3.validateExercise; cbn [vc_runDay vc_fasting vc_deload].
    replace (rd && String.eqb (BiomechanicalEngineV3.pattern ex) "hinge") with false
      by (destruct rd; [destruct (String.eqb_spec (BiomechanicalEngineV3.pattern ex) "hinge");
                        [exfalso; apply Hh; split; [reflexivity|assumption]|]|]; reflexivity).
    replace (fa && (BiomechanicalEngineV3.compressiveLoad ex >? 1)) with false
      by (destruct fa; [destruct (Z.gtb_spec (BiomechanicalEngineV3.compressiveLoad ex) 1);
                        [exfalso; apply Hf; split; [reflexivity|lia]|]|]; reflexivity).
    rewrite Hp. reflexivity.
Qed.

(** C8 (amended). Each version of [validateExercise] is a deterministic
    boolean gate that rejects exactly when one of its own rules fires, and
    the first rule that fires, in the order of the code, gives the reason.
    v2.1 (used by the session planner): compressiveLoad above 1 while
    fasting ("Fasting: esercizio troppo compressivo"), a hinge on a run day
    ("Run day: hinge escluso"), a defined band above [allowedMaxBand]
    ("Banda troppo alta per esercizio"). v3.0: a pattern "hinge" on a run
    day ("Run day: hinge escluso"), compressiveLoad above 1 while fasting
    ("Fasting: carico compressivo alto"), pattern "plyometric" during a
    deload ("Deload: plyometric escluso"). *)
Theorem validateExercise_reject_iff :
  ((forall ex c,
     verdict_ok (validateExercise ex c) = false <->
     (vc_fasting c = true /\ compressiveLoad ex > 1) \/
     (vc_runDay c = true /\ hinge ex = true) \/
     (exists b, vc_band c = Some b /\ b > allowedMaxBand ex)) /\
   ((forall ex c,
      vc_fasting c = true -> compressiveLoad ex > 1 ->
      validateExercise ex c = Reject "Fasting: esercizio troppo compressivo"%string) /\
   (forall ex c,
      ~ (vc_fasting c = true /\ compressiveLoad ex > 1) ->
      vc_runDay c = true -> hinge ex = true ->
      validateExercise ex c = Reject "Run day: hinge escluso"%string) /\
   (forall ex c b,
      ~ (vc_fasting c = true /\ compressiveLoad ex > 1) ->
      ~ (vc_runDay c = true /\ hinge ex = true) ->
      vc_band c = Some b -> b > allowedMaxBand ex ->
      validateExercise ex c = Reject "Banda troppo alta per esercizio"%string))) /\
  ((forall ex c,
     verdict_ok (BiomechanicalEngineV3.validateExercise ex c) = false <->
     (vc_runDay c = true /\ BiomechanicalEngineV3.pattern ex = "hinge"%string) \/
     (vc_fasting c = true /\ BiomechanicalEngineV3.compressiveLoad ex > 1) \/
     (vc_deload c = true /\ BiomechanicalEngineV3.pattern ex = "plyometric"%string)) /\
   ((forall ex c,
      vc_runDay c = true -> BiomechanicalEngineV3.pattern ex = "hinge"%string ->
      BiomechanicalEngineV3.validateExercise ex c = Reject "Run day: hinge escluso"%string) /\
   (forall ex c,
      ~ (vc_runDay c = true /\ BiomechanicalEngineV3.pattern ex = "hinge"%string) ->
      vc_fasting c = true -> BiomechanicalEngineV3.compressiveLoad ex > 1 ->
      BiomechanicalEngineV3.validateExercise ex c = Reject "Fasting: carico compressivo alto"%string) /\
   (forall ex c,
      ~ (vc_runDay c = true /\ BiomechanicalEngineV3.pattern ex = "hinge"%string) ->
      ~ (vc_fasting c = true /\ BiomechanicalEngineV3.compressiveLoad ex > 1) ->
      vc_deload c = true -> BiomechanicalEngineV3.pattern ex = "plyometric"%string ->
      BiomechanicalEngineV3.validateExercise ex c = Reject "Deload: plyometric escluso"%string))).
Proof.
  destruct validateExercise_reject_cases as [A21 AV3].
  destruct validateExercise_reasons as [R21 RV3].
  split; split; assumption.
Qed.

End BiomechanicalFacts.

Module SessionFacts.
Import StudyEngine BiomechanicalEngine SessionEngine Examples.
Local Open Scope string_scope.
Local Open Scope Z_scope.

(** **** The time closure only changes sets, rests and the warm-up and
    mobility lists: any field of the strength items that [with_sets] and
    [with_restSec] keep is kept. *)
Section ClosurePreserves.
Variable A : Type.
Variable proj : item -> A.
Hypothesis proj_sets : forall x n, proj (with_sets x n) = proj x.
Hypothesis proj_rest : forall x n, proj (with_restSec x n) = proj x.

Lemma updateFirst_proj (p : item -> bool) (f : item -> item) (l : list item) :
  (forall x, proj (f x) = proj x) -> map proj (updateFirst p f l) = map proj l.
Proof.
  intros Hf; induction l as [|x l IH]; simpl; [reflexivity|].
  destruct (p x); simpl; rewrite ?Hf, ?IH; reflexivity.
Qed.

Lemma addSet_proj fam m l s : addSet fam m l = Some s -> map proj s = map proj l.
Proof.
  unfold addSet; destruct (findItem (isFamily fam) l); [|discriminate].
  destruct (_ >=? m); [discriminate|]. intros H; injection H as <-.
  apply updateFirst_proj; intros; apply proj_sets.
Qed.

Lemma reduceSets_proj fam l s : reduceSetsOfFamily fam l = Some s -> map proj s = map proj l.
Proof.
  unfold reduceSetsOfFamily; destruct (findItem (isFamily fam) l); [|discriminate].
  destruct (_ <=? 1); [discriminate|]. intros H; injection H as <-.
  apply updateFirst_proj; intros; apply proj_sets.
Qed.

Lemma fillLoop_proj n t b : map proj (strength (fillLoop n t b)) = map proj (strength b).
Proof.
  revert b; induction n as [|n IH]; intros b; simpl; [reflexivity|].
  destruct (_ <? _); [|reflexivity].
  destruct (addSet "pull" 6 (strength b)) eqn:E1;
    [rewrite IH; simpl; eapply addSet_proj; eauto|].
  destruct (addSet "push" 6 (strength b)) eqn:E2;
    [rewrite IH; simpl; eapply addSet_proj; eauto|].
  destruct (addSet "posterior" _ (strength b)) eqn:E3;
    [rewrite IH; simpl; eapply addSet_proj; eauto|reflexivity].
Qed.

Lemma closeLoop_proj n t b : map proj (strength (closeLoop n t b)) = map proj (strength b).
Proof.
  revert b; induction n as [|n IH]; intros b; simpl; [reflexivity|].
  destruct (_ <? _); [|reflexivity].
  destruct (reduceSetsOfFamily "posterior" (strength b)) eqn:E1;
    [rewrite IH; simpl; eapply reduceSets_proj; eauto|].
  destruct (reduceSetsOfFamily "push" (strength b)) eqn:E2;
    [rewrite IH; simpl; eapply reduceSets_proj; eauto|].
  destruct (reduceSetsOfFamily "pull" (strength b)) eqn:E3;
    [rewrite IH; simpl; eapply reduceSets_proj; eauto|].
  destruct (1 <? _); [rewrite IH; reflexivity|].
  destruct (1 <? _); [rewrite IH; reflexivity|].
  destruct (findItem restAbove20 (strength b)); [|reflexivity].
  rewrite IH; simpl; apply updateFirst_proj; intros; apply proj_rest.
Qed.

End ClosurePreserves.

Lemma generate_strength_proj (A : Type) (proj : item -> A) st today db c :
  (forall x n, proj (with_sets x n) = proj x) ->
  (forall x n, proj (with_restSec x n) = proj x) ->
  map proj (strength (s_blocks (generateFromContext st today db c))) =
  map proj (fst (buildStrengthBlock (classifyAll db) (getTargets st c) c (rngInit (seedStr today c)))).
Proof.
  intros H1 H2. unfold generateFromContext; simpl.
  unfold closeToMinutes, fillStrengthIfTooShort.
  rewrite (closeLoop_proj A proj H1 H2), (fillLoop_proj A proj H1). reflexivity.
Qed.


Lemma rdl_strength_patterns tg :
  let c := getContextForToday day0 runDayFlags in
  map i_pattern (fst (buildStrengthBlock (classifyAll [rdlEntry]) tg c (rngInit (seedStr day0 c)))) =
  [Some "hinge"].
Proof. vm_compute. reflexivity. Qed.

Lemma rdl_strength_ids tg :
  let c := getContextForToday day0 fastingFlags in
  map i_id (fst (buildStrengthBlock (classifyAll [rdlEntry]) tg c (rngInit (seedStr day0 c)))) =
  [Some "rdl"].
Proof. vm_compute. reflexivity. Qed.

(** C3 (counterexample). For the catalog holding only a Romanian deadlift
    (classified hinge, posterior, compressiveLoad 2), the plan generated
    on a run day has a strength item of pattern "hinge", and the plan
    generated while fasting has a strength item for that movement, whose
    classified compressiveLoad is 2. *)
Lemma run_day_plan_with_hinge_item :
  map i_pattern (strength (s_blocks (generateSession defaultState day0 [rdlEntry] runDayFlags)))
    = [Some "hinge"] /\
  map i_id (strength (s_blocks (generateSession defaultState day0 [rdlEntry] fastingFlags)))
    = [Some "rdl"] /\
  c_id (classify rdlEntry) = Some "rdl" /\
  compressiveLoad (classify rdlEntry) = 2.
Proof.
  unfold generateSession. split; [|split].
  - rewrite generate_strength_proj by reflexivity. apply rdl_strength_patterns.
  - rewrite generate_strength_proj by reflexivity. apply rdl_strength_ids.
  - vm_compute. split; reflexivity.
Qed.

Lemma generateFromContext_fields st today db c1 c2 :
  minutes c1 = minutes c2 -> runDay c1 = runDay c2 -> fasting c1 = fasting c2 ->
  rpe3 c1 = rpe3 c2 -> noAnchors c1 = noAnchors c2 ->
  generateFromContext st today db c1 = generateFromContext st today db c2.
Proof.
  destruct c1, c2; simpl; intros; subst; reflexivity.
Qed.

(** C2. Generation is deterministic: with the same stored state, the same
    day and the same catalog, two calls of [generateSession] whose contexts
    agree on duration, runDay, fasting, effort level and the no-anchor
    flag return the same session (the raw flags may differ, e.g. in the
    equipment list or in an unsupported duration mapped to the same one).
    The generator is seeded from the seed string alone. *)
Theorem generateSession_deterministic st today db f1 f2 :
  let c1 := getContextForToday today f1 in
  let c2 := getContextForToday today f2 in
  minutes c1 = minutes c2 -> runDay c1 = runDay c2 -> fasting c1 = fasting c2 ->
  rpe3 c1 = rpe3 c2 -> noAnchors c1 = noAnchors c2 ->
  generateSession st today db f1 = generateSession st today db f2.
Proof.
  intros c1 c2 Hm Hr Hf Hp Hn. unfold generateSession.
  apply generateFromContext_fields; assumption.
Qed.

Lemma generateSession_deterministic_witness :
  generateSession defaultState day0 [rdlEntry] emptyFlags =
  generateSession defaultState day0 [rdlEntry]
                  (mkFlags (Some 40) false false 0 (Some true) (Some ["band"])).
Proof.
  apply (generateSession_deterministic defaultState day0 [rdlEntry]); reflexivity.
Defined.

Lemma postPool_run_day_no_hinge cands e : In e (postPoolOf true cands) -> hinge e = false.
Proof.
  unfold postPoolOf.
  destruct (filter _ cands) as [|x l] eqn:E.
  - rewrite filter_In. intros [_ H]. apply andb_prop in H as [H _].
    apply andb_prop in H as [_ H]. apply negb_true_iff; exact H.
  - rewrite <- E, filter_In. intros [_ H].
    apply andb_prop in H as [H _]. apply andb_prop in H as [H _].
    apply andb_prop in H as [_ H]. apply negb_true_iff; exact H.
Qed.

End SessionFacts.

(** ** Further properties of the engines *)

Module StudyEngineExtra.
Import StudyEngine MoreExamples.

Lemma clamp_range n a b : a <= b -> a <= clamp n a b <= b.
Proof. unfold clamp; lia. Qed.

Lemma rep_menu_at i : In (at_ REP_MENU (clamp i 0 6)) REP_MENU.
Proof.
  assert (H := clamp_range i 0 6 ltac:(lia)).
  assert (clamp i 0 6 = 0 \/ clamp i 0 6 = 1 \/ clamp i 0 6 = 2 \/ clamp i 0 6 = 3 \/
          clamp i 0 6 = 4 \/ clamp i 0 6 = 5 \/ clamp i 0 6 = 6) as Hc by lia.
  destruct Hc as [E|[E|[E|[E|[E|[E|E]]]]]]; rewrite E; simpl; tauto.
Qed.

Lemma band_or_15 b : In (if includes BAND_MENU b then b else 15) BAND_MENU.
Proof.
  unfold includes. destruct (existsb (Z.eqb b) BAND_MENU) eqn:E; [|simpl; tauto].
  apply existsb_exists in E as [x [Hx Hb]]. apply Z.eqb_eq in Hb. subst; exact Hx.
Qed.

Lemma rest_menu r d : In (getRestSeconds r d) [25; 35; 45].
Proof.
  unfold getRestSeconds. destruct d; [simpl; tauto|].
  destruct (r =? RPE3_EASY); [simpl; tauto|]. destruct (r =? RPE3_MOD); simpl; tauto.
Qed.

(** X1: The targets of every state and context lie in the ranges and menus of
    the engine. *)
Theorem getTargets_ranges st c :
  let t := getTargets st c in
  2 <= t_sets (strength_pull t) <= 6 /\ 2 <= t_sets (strength_push t) <= 6 /\
  1 <= t_sets (strength_posterior t) <= 4 /\
  t_sets (strength_posterior t) <= Z.max 1 (floor12 (t_sets (strength_pull t))) /\
  1 <= core_sets t <= 4 /\ 15 <= core_seconds t <= 60 /\
  Forall (fun f => In (t_reps f) REP_MENU /\ In (t_band f) BAND_MENU /\ In (t_rest f) [25; 35; 45])
         [strength_pull t; strength_push t; strength_posterior t].
Proof.
  cbv zeta. unfold getTargets.
  cbn [strength_pull strength_push strength_posterior t_sets t_reps t_band t_rest core_sets core_seconds].
  set (a := clamp (round (IZR (setBase (pull (prog st))) * multOf st c)) 2 6).
  set (b := clamp (round (IZR (setBase (push (prog st))) * multOf st c)) 2 6).
  set (d := clamp (round (IZR (setBase (posterior (prog st))) * multOf st c)) 1 4).
  assert (Ha : 2 <= a <= 6) by (apply clamp_range; lia).
  assert (Hb : 2 <= b <= 6) by (apply clamp_range; lia).
  assert (Hd : 1 <= d <= 4) by (apply clamp_range; lia).
  split; [exact Ha|]. split; [exact Hb|].
  split; [unfold floor12; lia|]. split; [lia|].
  split; [apply clamp_range; lia|]. split; [apply clamp_range; lia|].
  repeat (apply Forall_cons;
          [cbn [t_reps t_band t_rest]; split; [apply rep_menu_at|split; [apply band_or_15|apply rest_menu]]|]).
  apply Forall_nil.
Qed.

Lemma advance_regress_armed rpe p n :
  advanceRepFamily true rpe p n = mkRepFam (clamp (repIndex p - 1) 0 6) (band p) (setBase p).
Proof. reflexivity. Qed.

Lemma advance_regress_hard armed p n :
  advanceRepFamily armed RPE3_HARD p n = mkRepFam (clamp (repIndex p - 1) 0 6) (band p) (setBase p).
Proof.
  destruct armed; [reflexivity|]. unfold advanceRepFamily.
  rewrite Z.eqb_refl, andb_false_r, orb_true_r. reflexivity.
Qed.

(** X2: A completion never advances a rep-based family when the result is hard
    or a deload is armed: each of pull, push and posterior drops one step
    in the rep menu (not below the first entry) and keeps its band; pull
    and push keep their set base. *)
Theorem hard_or_deload_result_regresses today st r :
  effortOf r = RPE3_HARD \/ deloadArmed st = true ->
  let P := prog st in
  let P' := prog (applySessionResult today st r) in
  pull P' = mkRepFam (clamp (repIndex (pull P) - 1) 0 6) (band (pull P)) (setBase (pull P)) /\
  push P' = mkRepFam (clamp (repIndex (push P) - 1) 0 6) (band (push P)) (setBase (push P)) /\
  repIndex (posterior P') = clamp (repIndex (posterior P) - 1) 0 6 /\
  band (posterior P') = band (posterior P).
Proof.
  intros H. unfold applySessionResult. cbn zeta. unfold effortOf in H.
  destruct H as [H|H].
  - rewrite H, !advance_regress_hard. repeat split.
  - rewrite H. destruct (_ >=? 2); rewrite !advance_regress_armed; repeat split.
Qed.

(** A run of [hard_or_deload_result_regresses] on sample inputs. *)
Lemma hard_or_deload_result_regresses_witness :
  effortOf (dayResult day0 3) = RPE3_HARD /\
  pull (prog (applySessionResult day0 defaultState (dayResult day0 3))) = mkRepFam 0 15 3.
Proof.
  split; [reflexivity|].
  exact (proj1 (hard_or_deload_result_regresses day0 defaultState
                  (dayResult day0 3) (or_introl eq_refl))).
Defined.

Lemma dayNumber_nonempty k n : dayNumber k = Some n -> k <> ""%string.
Proof. intros H E; subst; discriminate H. Qed.

Lemma apply_lastCompletedDay today st r :
  lastCompletedDay (applySessionResult today st r) = Some (orS (r_dayKey r) today).
Proof. reflexivity. Qed.

Lemma apply_streak today st r :
  streak (applySessionResult today st r) = newStreak st (orS (r_dayKey r) today).
Proof. reflexivity. Qed.

Lemma orS_some s d : s <> ""%string -> orS (Some s) d = s.
Proof. intros H. unfold orS. rewrite (proj2 (String.eqb_neq _ _) H). reflexivity. Qed.

(** X3: A result logged late (dated the day before the last completion) moves
    [lastCompletedDay] back to its own day, so a completion on the day
    after the last completion then resets the streak to 1. *)
Theorem late_result_resets_streak today st r1 r2 last e f n :
  lastCompletedDay st = Some last -> dayNumber last = Some n ->
  r_dayKey r1 = Some e -> dayNumber e = Some (n - 1) ->
  r_dayKey r2 = Some f -> dayNumber f = Some (n + 1) ->
  let st1 := applySessionResult today st r1 in
  let st2 := applySessionResult today st1 r2 in
  streak st1 = streak st /\ lastCompletedDay st1 = Some e /\ streak st2 = 1.
Proof.
  intros Hl Hn He Hen Hf Hfn. cbv zeta.
  assert (Ne := dayNumber_nonempty _ _ Hen). assert (Nf := dayNumber_nonempty _ _ Hfn).
  assert (Nl := dayNumber_nonempty _ _ Hn).
  rewrite !apply_streak, !apply_lastCompletedDay, He, Hf, !orS_some by assumption.
  unfold newStreak. rewrite apply_lastCompletedDay, He, orS_some by assumption.
  rewrite Hl, (proj2 (String.eqb_neq _ _) Nl), (proj2 (String.eqb_neq _ _) Ne), Hen, Hn, Hfn.
  replace (n - 1 - n =? 1) with false by (symmetry; apply Z.eqb_neq; lia).
  replace (n - 1 - n >? 1) with false by (symmetry; rewrite Z.gtb_ltb; apply Z.ltb_ge; lia).
  replace (n + 1 - (n - 1) =? 1) with false by (symmetry; apply Z.eqb_neq; lia).
  replace (n + 1 - (n - 1) >? 1) with true by (symmetry; rewrite Z.gtb_ltb; apply Z.ltb_lt; lia).
  repeat split.
Qed.

(** A run of [late_result_resets_streak] on sample inputs. *)
Lemma late_result_resets_streak_witness :
  let st1 := applySessionResult day0 streakState (dayResult "2026-10-16"%string 2) in
  let st2 := applySessionResult day0 st1 (dayResult "2026-10-18"%string 2) in
  streak st1 = 4 /\ lastCompletedDay st1 = Some "2026-10-16"%string /\ streak st2 = 1.
Proof.
  exact (late_result_resets_streak day0 streakState
           (dayResult "2026-10-16"%string 2) (dayResult "2026-10-18"%string 2)
           "2026-10-17"%string "2026-10-16"%string "2026-10-18"%string 20743
           eq_refl eq_refl eq_refl eq_refl eq_refl eq_refl).
Defined.


Lemma band_menu_cases b : In b BAND_MENU -> b = 15 \/ b = 25 \/ b = 35.
Proof. simpl; intuition. Qed.

Lemma advance_ranges lo armed rpe p n :
  1 <= lo <= 2 ->
  0 <= repIndex p <= 6 -> In (band p) BAND_MENU -> lo <= setBase p <= 5 ->
  let p' := advanceRepFamily armed rpe p n in
  0 <= repIndex p' <= 6 /\ In (band p') BAND_MENU /\ lo <= setBase p' <= 5.
Proof.
  intros Hlo Hr Hb Hs. cbv zeta. destruct armed.
  - simpl. repeat split; auto; unfold clamp; lia.
  - unfold advanceRepFamily.
    destruct (_ && _); [|destruct (_ || _); simpl; repeat split; auto; unfold clamp; lia].
    destruct (repIndex p <? 6) eqn:E.
    + apply Z.ltb_lt in E. simpl. repeat split; auto; lia.
    + destruct p as [ri b sb]; cbn [band repIndex setBase] in *.
      destruct (band_menu_cases _ Hb) as [B|[B|B]]; subst b;
        unfold progressBandIfPossible; cbn; repeat split; try lia; simpl; try tauto; unfold clamp; lia.
Qed.

(** X4: [applySessionResult] keeps a well-formed state well formed: rep
    indices within the rep menu, bands in the band menu, the set bases of
    pull and push in [2, 5] and of posterior in [1, 5], the core hold in
    [15, 60] s, the session counter in [0, 2]; the week moves by at most
    one. *)
Theorem applySessionResult_keeps_ranges today st r :
  let P := prog st in
  0 <= repIndex (pull P) <= 6 -> In (band (pull P)) BAND_MENU -> 2 <= setBase (pull P) <= 5 ->
  0 <= repIndex (push P) <= 6 -> In (band (push P)) BAND_MENU -> 2 <= setBase (push P) <= 5 ->
  0 <= repIndex (posterior P) <= 6 -> In (band (posterior P)) BAND_MENU ->
  1 <= setBase (posterior P) <= 5 -> 0 <= sessionInWeek st ->
  let st' := applySessionResult today st r in
  let P' := prog st' in
  (0 <= repIndex (pull P') <= 6 /\ In (band (pull P')) BAND_MENU /\ 2 <= setBase (pull P') <= 5) /\
  (0 <= repIndex (push P') <= 6 /\ In (band (push P')) BAND_MENU /\ 2 <= setBase (push P') <= 5) /\
  (0 <= repIndex (posterior P') <= 6 /\ In (band (posterior P')) BAND_MENU /\
   1 <= setBase (posterior P') <= 5) /\
  15 <= holdSeconds (core P') <= 60 /\
  0 <= sessionInWeek st' <= 2 /\ (week st' = week st \/ week st' = week st + 1).
Proof.
  cbv zeta. intros H1 H2 H3 H4 H5 H6 H7 H8 H9 H10.
  unfold applySessionResult; cbn zeta; cbn [prog pull push posterior core repIndex band setBase
    holdSeconds sessionInWeek week].
  set (armed := if _ >=? 2 then true else deloadArmed st).
  set (rpe := clamp (orZ (r_rpe3 r) RPE3_MOD) 1 3).
  set (pl := advanceRepFamily armed rpe (pull (prog st)) _).
  set (pu := advanceRepFamily armed rpe (push (prog st)) _).
  set (po := advanceRepFamily armed rpe (posterior (prog st)) _).
  destruct (advance_ranges 2 armed rpe (pull (prog st)) (orZ (sm_pullRepsDone (r_summary r)) (orZ (sm_pull (r_summary r)) 0)) ltac:(lia) H1 H2 H3) as [A1 [A2 A3]].
  destruct (advance_ranges 2 armed rpe (push (prog st)) (orZ (sm_pushRepsDone (r_summary r)) (orZ (sm_push (r_summary r)) 0)) ltac:(lia) H4 H5 H6) as [B1 [B2 B3]].
  destruct (advance_ranges 1 armed rpe (posterior (prog st)) (orZ (sm_posteriorRepsDone (r_summary r)) (orZ (sm_posterior (r_summary r)) 0)) ltac:(lia) H7 H8 H9) as [C1 [C2 C3]].
  fold pl pu po in A1, A2, A3, B1, B2, B3, C1, C2, C3.
  split; [auto|]. split; [auto|]. split; [repeat split; auto; unfold floor12; lia|].
  split; [unfold advanceCore; destruct (negb _); simpl; unfold clamp; lia|].
  assert (Hr := Z.rem_bound_pos (sessionInWeek st + 1) 3 ltac:(lia) ltac:(lia)).
  split; [lia|]. destruct (Z.rem _ 3 =? 0); auto.
Qed.

(** A run of [applySessionResult_keeps_ranges] on sample inputs. *)
Lemma applySessionResult_keeps_ranges_witness :
  let P' := prog (applySessionResult day0 defaultState (dayResult day0 1)) in
  0 <= repIndex (pull P') <= 6 /\ In (band (pull P')) BAND_MENU /\ 2 <= setBase (pull P') <= 5.
Proof.
  apply (applySessionResult_keeps_ranges day0 defaultState (dayResult day0 1));
    cbn; try lia; tauto.
Defined.

End StudyEngineExtra.

Module BiomechanicalExtra.
Import Text BiomechanicalEngine BiomechanicalAdapt Examples MoreExamples.
Local Open Scope string_scope.
Local Open Scope Z_scope.

(** X7: The load heuristics of [classify] stay on their 0..3 scale
    (compressive and shear in [0, 2], lumbar risk in [0, 3]), and the
    compressive load exceeds 1 exactly for a hinge that is not a core
    anti-extension exercise; such a hinge always has lumbar risk 3. *)
Theorem classify_loads (e : rawEx) :
  let c := classify e in
  let heavy := hinge c && negb (String.eqb (family c) "core" && antiExtension c) in
  (compressiveLoad c >? 1) = heavy /\
  0 <= compressiveLoad c <= 2 /\ 0 <= shearLoad c <= 2 /\ 0 <= lumbarRisk c <= 3 /\
  (heavy = true -> lumbarRisk c = 3).
Proof.
  unfold classify; cbv zeta; cbn [hinge family antiExtension compressiveLoad shearLoad lumbarRisk].
  repeat (cbv beta iota; cbn [hinge family antiExtension compressiveLoad shearLoad lumbarRisk];
          match goal with
          | |- context [if ?b then _ else _] => destruct b eqn:?
          end);
  cbv beta iota; cbn [hinge family antiExtension compressiveLoad shearLoad lumbarRisk];
  repeat match goal with H : ?x = _ |- context [?x] => rewrite H end;
  unfold clamp; repeat split; try lia; try discriminate.
Qed.

Lemma insertByRisk_In x l b : In b (insertByRisk x l) <-> In b (x :: l).
Proof.
  induction l as [|y l IH]; simpl; [tauto|].
  destruct (lumbarRisk x <=? lumbarRisk y); simpl; [tauto|].
  rewrite IH; simpl; tauto.
Qed.

Lemma sortByRisk_In l b : In b (sortByRisk l) <-> In b l.
Proof.
  induction l as [|x l IH]; simpl; [tauto|].
  rewrite insertByRisk_In; simpl; rewrite IH; tauto.
Qed.

Lemma insertByRisk_cons x l : exists a t, insertByRisk x l = a :: t.
Proof. destruct l as [|y l]; simpl; [eauto|]. destruct (_ <=? _); eauto. Qed.

Lemma sortByRisk_head l a t :
  sortByRisk l = a :: t -> In a l /\ forall b, In b l -> lumbarRisk a <= lumbarRisk b.
Proof.
  revert a t; induction l as [|x l IH]; intros a t E; simpl in E; [discriminate|].
  destruct (sortByRisk l) as [|a' t'] eqn:S.
  - destruct l as [|y l]; [|destruct (insertByRisk_cons y (sortByRisk l)) as (? & ? & E');
      simpl in S; rewrite E' in S; discriminate].
    simpl in E; injection E as <- _; split; [left; auto|]; intros b [<-|[]]; lia.
  - destruct (IH a' t' eq_refl) as [Hin Hmin]. simpl in E.
    destruct (lumbarRisk x <=? lumbarRisk a') eqn:L; injection E as <- _.
    + apply Z.leb_le in L. split; [left; auto|].
      intros b [<-|Hb]; [lia|]. specialize (Hmin b Hb); lia.
    + apply Z.leb_gt in L. split; [right; auto|].
      intros b [<-|Hb]; [lia|]. auto.
Qed.

(** Case on the first list the goal matches on. *)
Tactic Notation "goal_list" ident(e) ident(r) ident(C) :=
  match goal with
  | |- context [match ?x with [] => _ | _ :: _ => _ end] => destruct x as [|e r] eqn:C
  end.

(** X8: [adaptNoAnchor] never hands back an exercise that requires an anchor,
    except the catalog entry named by [adaptedId], which it returns as
    found without looking at its anchor flag. *)
Theorem adaptNoAnchor_result_anchor_free ex all a n :
  adaptNoAnchor ex all = Some (a, n) ->
  c_requiresAnchor a = false \/
  (n = Some "Variante no-anchor (adaptedId)" /\ In a all /\ c_id a = rx_adaptedId (c_ex ex)).
Proof.
  unfold adaptNoAnchor. cbv zeta.
  assert (Pool : forall e, In e (filter (fun e => negb (c_requiresAnchor e)) all) ->
                 c_requiresAnchor e = false).
  { intros e He; apply filter_In in He as [_ He]; destruct (c_requiresAnchor e); auto. }
  destruct (negb (c_requiresAnchor ex)) eqn:R.
  { intros H; injection H as <- _; left; destruct (c_requiresAnchor ex); auto; discriminate. }
  destruct (rx_adaptedVersion (c_ex ex)) as [av|].
  { intros H; injection H as <- _; left; reflexivity. }
  destruct (rx_adaptedId (c_ex ex)) as [aid|] eqn:Aid;
    [destruct (String.eqb aid "") eqn:Ae; [|destruct (find _ all) as [found|] eqn:B]|].
  2:{ intros H; injection H as -> <-; right; split; [reflexivity|].
      apply find_some in B as [Hin Hid]; split; [auto|].
      destruct (c_id a) as [i|]; [|discriminate]. apply String.eqb_eq in Hid; subst; auto. }
  all: cbv iota.
  all: destruct (antiRotation ex); cbv beta iota;
    [goal_list e1 r1 C1; cbv beta iota;
     [|intros H; injection H as <- _; left; pose proof (in_eq e1 r1) as Hm; rewrite <- C1 in Hm;
      apply filter_In in Hm as [Hm _]; apply Pool, Hm]|].
  all: destruct (String.eqb (pattern ex) "pull"); cbv beta iota;
    [goal_list e2 r2 C2; cbv beta iota;
     [|intros H; injection H as <- _; left; pose proof (in_eq e2 r2) as Hm; rewrite <- C2 in Hm;
      apply filter_In in Hm as [Hm _]; apply Pool, Hm]|].
  all: destruct (String.eqb (pattern ex) "push"); cbv beta iota;
    [goal_list e3 r3 C3; cbv beta iota;
     [|intros H; injection H as <- _; left; pose proof (in_eq e3 r3) as Hm; rewrite <- C3 in Hm;
      apply filter_In in Hm as [Hm _]; apply Pool, Hm]|].
  all: goal_list e4 r4 C4; [intros H; discriminate|].
  all: intros H; injection H as <- _; left; pose proof (in_eq e4 r4) as Hm; rewrite <- C4 in Hm.
  all: apply sortByRisk_In, filter_In in Hm as [Hm _]; apply Pool, Hm.
Qed.

(** A run of [adaptNoAnchor_result_anchor_free] on sample inputs. *)
Lemma adaptNoAnchor_result_anchor_free_witness :
  exists a n, adaptNoAnchor anchoredRow rowCatalog = Some (a, n) /\ c_requiresAnchor a = false.
Proof.
  do 2 eexists. split; [reflexivity|].
  match goal with |- c_requiresAnchor ?a = false =>
    destruct (adaptNoAnchor_result_anchor_free anchoredRow rowCatalog a
                (Some "Sostituzione no-anchor (pull)") eq_refl) as [H|[H _]];
    [exact H|discriminate H] end.
Defined.

(** X9: When [adaptNoAnchor] falls back to a same-family replacement, the
    replacement is an anchor-free catalog entry of the exercise's family
    with lumbar risk at most 2, and no other such entry has a lower lumbar
    risk. *)
Theorem adaptNoAnchor_fallback_min ex all a :
  adaptNoAnchor ex all = Some (a, Some "Sostituzione no-anchor (fallback safe)") ->
  In a all /\ c_requiresAnchor a = false /\ family a = family ex /\ lumbarRisk a <= 2 /\
  (forall b, In b all -> c_requiresAnchor b = false -> family b = family ex ->
             lumbarRisk b <= 2 -> lumbarRisk a <= lumbarRisk b).
Proof.
  unfold adaptNoAnchor. cbv zeta.
  destruct (negb (c_requiresAnchor ex)); [intros H; injection H as _ Hn; discriminate Hn|].
  destruct (rx_adaptedVersion (c_ex ex)); [intros H; injection H as _ Hn; discriminate Hn|].
  destruct (rx_adaptedId (c_ex ex)) as [aid|];
    [destruct (String.eqb aid ""); [|destruct (find _ all) as [found|]]|].
  2:{ intros H; injection H as _ Hn; discriminate Hn. }
  all: cbv iota.
  all: destruct (antiRotation ex); cbv beta iota;
    [goal_list e1 r1 C1; cbv beta iota; [|intros H; injection H as _ Hn; discriminate Hn]|].
  all: destruct (String.eqb (pattern ex) "pull"); cbv beta iota;
    [goal_list e2 r2 C2; cbv beta iota; [|intros H; injection H as _ Hn; discriminate Hn]|].
  all: destruct (String.eqb (pattern ex) "push"); cbv beta iota;
    [goal_list e3 r3 C3; cbv beta iota; [|intros H; injection H as _ Hn; discriminate Hn]|].
  all: goal_list e4 r4 C4; [intros H; discriminate|].
  all: intros H; injection H as <-.
  all: destruct (sortByRisk_head _ _ _ C4) as [Hin Hmin].
  all: apply filter_In in Hin as [Hin Hf]; apply filter_In in Hin as [Hin Hp].
  all: apply andb_prop in Hf as [Hfam Hr]; apply String.eqb_eq in Hfam; apply Z.leb_le in Hr.
  all: split; [exact Hin|]; split; [destruct (c_requiresAnchor e4); auto; discriminate|].
  all: split; [exact Hfam|]; split; [exact Hr|].
  all: intros b Hb Hba Hbf Hbr; apply Hmin.
  all: apply filter_In; split; [apply filter_In; split; [auto|]; rewrite Hba; reflexivity|].
  all: rewrite Hbf, String.eqb_refl; apply Z.leb_le in Hbr; rewrite Hbr; reflexivity.
Qed.

(** A run of [adaptNoAnchor_fallback_min] on sample inputs. *)
Lemma adaptNoAnchor_fallback_min_witness :
  exists a, adaptNoAnchor anchoredRdl hingeCatalog = Some (a, Some "Sostituzione no-anchor (fallback safe)") /\
  c_id a = Some "hip" /\ lumbarRisk a <= 2 /\ family a = "posterior".
Proof.
  eexists. split; [reflexivity|]. split; [reflexivity|].
  match goal with |- lumbarRisk ?a <= 2 /\ _ =>
    destruct (adaptNoAnchor_fallback_min anchoredRdl hingeCatalog a eq_refl)
      as (_ & _ & F & R & _) end.
  split; [exact R|]. rewrite F; reflexivity.
Defined.

Lemma dedup_In x l : In x (dedup l) <-> In x l.
Proof.
  induction l as [|y l IH]; simpl; [tauto|].
  rewrite filter_In, IH. destruct (String.eqb_spec y x); simpl; intuition congruence.
Qed.

Lemma dedup_NoDup l : NoDup (dedup l).
Proof.
  induction l as [|y l IH]; simpl; constructor.
  - rewrite filter_In, String.eqb_refl; simpl; intuition discriminate.
  - apply NoDup_filter, IH.
Qed.

Lemma firstn_NoDup {A} n (l : list A) : NoDup l -> NoDup (firstn n l).
Proof.
  intros H; rewrite <- (firstn_skipn n l) in H. eapply NoDup_app_remove_r; eauto.
Qed.

Lemma firstn_In_l {A} n (l : list A) x : In x (firstn n l) -> In x l.
Proof. intros H; rewrite <- (firstn_skipn n l); apply in_or_app; auto. Qed.

Lemma In_existsb_eqb s l : In s l <-> existsb (String.eqb s) l = true.
Proof.
  rewrite existsb_exists; split.
  - intros H; exists s; rewrite String.eqb_refl; auto.
  - intros [x [Hx E]]; apply String.eqb_eq in E; subst; auto.
Qed.

(** X10: [getCues] returns at most ten distinct, non-empty cues, and the first
    eight are always the four universal spine cues followed by the four
    pre-set checks: pattern cues, the catalog's own cues and its note only
    fill the last two places. *)
Theorem getCues_shape ex :
  let cs := getCues ex in
  NoDup cs /\ (List.length cs <= 10)%nat /\ ~ List.In ""%string cs /\
  firstn 8 cs = (TrainingKnowledge.universalCues ++ TrainingKnowledge.preSetChecklist)%list.
Proof.
  cbv zeta; unfold getCues, slice0.
  split; [apply firstn_NoDup, NoDup_filter, dedup_NoDup|].
  split; [apply firstn_le_length|].
  split.
  { intros H; apply firstn_In_l, filter_In in H as [_ H].
    rewrite String.eqb_refl in H; discriminate. }
  match goal with
  | |- context [dedup (TrainingKnowledge.universalCues ++ TrainingKnowledge.preSetChecklist ++ ?r)%list] =>
      generalize r; intros rest
  end.
  vm_compute; reflexivity.
Qed.

(** X11: [getWarnings] returns at most eight distinct warnings and always keeps
    the three caution patterns. Its run-day hinge warning appears exactly
    when the day is a run day and the exercise is a hinge, except when the
    exercise is also isometric, anti-extension, anti-rotation and anchored:
    then the cap of eight drops it. *)
Theorem getWarnings_shape ex runDay :
  let w := getWarnings ex runDay in
  NoDup w /\ (List.length w <= 8)%nat /\
  (forall p, List.In p TrainingKnowledge.cautionPatterns -> List.In p w) /\
  (List.In "Giorno corsa: hinge/hinge pesanti sconsigliati." w <->
   runDay && hinge ex &&
   negb (isIsometric ex && antiExtension ex && antiRotation ex && c_requiresAnchor ex) = true).
Proof.
  cbv zeta; unfold getWarnings, slice0.
  split; [apply firstn_NoDup, dedup_NoDup|].
  split; [apply firstn_le_length|].
  destruct (isIsometric ex), (hinge ex), (antiExtension ex), (antiRotation ex),
    (c_requiresAnchor ex), runDay;
    (split; [intros p Hp; rewrite In_existsb_eqb;
             destruct Hp as [<-|[<-|[<-|[]]]]; vm_compute; reflexivity|]);
    rewrite In_existsb_eqb; vm_compute; split; congruence.
Qed.

End BiomechanicalExtra.

Module SessionExtra.
Import StudyEngine Text BiomechanicalEngine BiomechanicalAdapt SessionEngine SessionTrim Examples MoreExamples.
Local Open Scope string_scope.
Local Open Scope Z_scope.

Lemma u32_range z : 0 <= u32 z < 2 ^ 32.
Proof.
  unfold u32. change (2 ^ 32 - 1) with (Z.ones 32). rewrite Z.land_ones by lia.
  apply Z.mod_pos_bound; lia.
Qed.

Lemma rngStep_range x : 0 <= rngStep x < 2 ^ 32.
Proof. unfold rngStep. apply u32_range. Qed.

Lemma pickOne_some {A} (arr : list A) x :
  arr <> [] -> exists a, pickOne arr x = (Some a, rngStep x) /\ List.In a arr.
Proof.
  intros Hne. destruct arr as [|h t] eqn:E; [congruence|]. rewrite <- E.
  unfold pickOne; rewrite E; rewrite <- E.
  destruct (rngStep_range x) as [L U].
  set (n := List.length arr).
  assert (Hn : (0 < n)%nat) by (subst n arr; simpl; lia).
  assert (Hi : (Z.to_nat ((rngStep x * Z.of_nat n) / 2 ^ 32) < n)%nat).
  { apply Nat2Z.inj_lt. rewrite Z2Nat.id.
    - apply Z.div_lt_upper_bound; [lia|]. nia.
    - apply Z.div_pos; lia. }
  destruct (nth_error arr _) as [a|] eqn:N.
  - exists a; split; [reflexivity|]. eapply nth_error_In; eauto.
  - apply nth_error_None in N. lia.
Qed.

(** X12: [pickOne] on an empty array returns [null] and leaves the generator
    untouched; on a non-empty array it always returns one of the array's
    elements (the index [floor(rand() * length)] is in range) and advances
    the generator by exactly one step. *)
Theorem pickOne_spec {A} (arr : list A) x :
  (arr = [] -> pickOne arr x = (None, x)) /\
  (arr <> [] -> exists a, pickOne arr x = (Some a, rngStep x) /\ List.In a arr).
Proof. split; [intros ->; reflexivity|apply pickOne_some]. Qed.

Lemma pickOne_In {A} (arr : list A) x a y : pickOne arr x = (Some a, y) -> List.In a arr.
Proof.
  intros H. destruct arr as [|h t]; [discriminate|].
  destruct (pickOne_some (h :: t) x ltac:(discriminate)) as (b & E & Hb).
  rewrite E in H; congruence.
Qed.

Lemma pickOne_None {A} (arr : list A) x : fst (pickOne arr x) = None -> arr = [].
Proof.
  intros H. destruct arr as [|h t]; [reflexivity|].
  destruct (pickOne_some (h :: t) x ltac:(discriminate)) as (b & E & _).
  rewrite E in H; discriminate.
Qed.

Lemma orElse_None {A} (r : option A * Z) k : fst (orElse r k) = None -> fst r = None.
Proof. unfold orElse; destruct r as [[a|] y]; simpl; auto. Qed.

Lemma has_In used k : List.In k used -> has used k = true.
Proof.
  intros H; apply existsb_exists; exists k; split; [auto|].
  destruct k; [apply String.eqb_refl|reflexivity].
Qed.

Lemma has_false_neq used k k' : has used k = false -> List.In k' used -> k <> k'.
Proof. intros H Hi ->; rewrite has_In in H; [discriminate|auto]. Qed.

Lemma take_incl used ex t used' :
  take used ex = (t, used') -> forall k, List.In k used -> List.In k used'.
Proof.
  unfold take; destruct ex as [e|]; [destruct (has used (key e))|];
    intros T; injection T as _ <-; simpl; auto.
Qed.

(** One de-duplication step of [chooseStrengthExercises]: the exercise
    kept is new for [used], and [used] only grows. *)
Lemma take_step used ex t used' x P b y :
  take used ex = (t, used') ->
  orElse (t, x) (pickOne (filter (fun e => negb (has used' (key e))) P)) = (Some b, y) ->
  has used (key b) = false /\ (forall k, List.In k used -> List.In k used') /\
  (t = Some b -> List.In (key b) used').
Proof.
  unfold take, orElse; simpl. intros T O.
  destruct ex as [e|].
  - destruct (has used (key e)) eqn:Hk; injection T as <- <-.
    + split; [|split; [auto|discriminate]].
      apply pickOne_In, filter_In in O as [_ O]. destruct (has used (key b)); auto; discriminate.
    + injection O as <- _. split; [auto|]. split; [simpl; auto|]. intros _; left; auto.
  - injection T as <- <-. split; [|split; [auto|discriminate]].
    apply pickOne_In, filter_In in O as [_ O]. destruct (has used (key b)); auto; discriminate.
Qed.

(** X13: With no-anchor adaptation off, the pull exercise that
    [chooseStrengthExercises] returns never shares its key ([id || name])
    with the push or the posterior exercise. *)
Theorem chooseStrength_pull_key_distinct pool c x0 ch x a :
  noAnchors c = false ->
  chooseStrengthExercises pool c x0 = (ch, x) ->
  ch_pull ch = Some a ->
  (forall b, ch_push ch = Some b -> key a <> key b) /\
  (forall d, ch_posterior ch = Some d -> key a <> key d).
Proof.
  intros Hna. unfold chooseStrengthExercises. rewrite Hna.
  destruct (orElse (pickOne (pullPoolOf pool) x0) (pickOne pool)) as [pull0 x1] eqn:P1.
  destruct (orElse (pickOne (pushPoolOf pool) x1) (pickOne pool)) as [push0 x2] eqn:P2.
  destruct (orElse (orElse (pickOne (postPoolOf (runDay c) pool) x2) _) (pickOne pool)) as [post0 x3] eqn:P3.
  destruct (take [] pull0) as [t1 used1] eqn:T1.
  destruct (orElse (t1, x3) _) as [pull1 x4] eqn:Q1.
  destruct (take used1 push0) as [t2 used2] eqn:T2.
  destruct (orElse (t2, x4) _) as [push1 x5] eqn:Q2.
  destruct (take used2 post0) as [t3 used3] eqn:T3.
  destruct (orElse (t3, x5) _) as [post1 x6] eqn:Q3.
  intros E; injection E as <- _; cbn [ch_pull ch_push ch_posterior adapt negb].
  destruct pull1 as [p|]; [|discriminate]. intros Ha; injection Ha as ->.
  (* the pull exercise's key is recorded in [used1] *)
  assert (Ka : List.In (key a) used1).
  { destruct (take_step _ _ _ _ _ _ _ _ T1 Q1) as (_ & _ & Hk).
    destruct t1 as [t1|]; [unfold take in T1; destruct pull0; [|discriminate];
      simpl in T1; injection T1 as -> <-; apply Hk; unfold orElse in Q1; simpl in Q1; congruence|].
    exfalso. unfold take in T1. destruct pull0 as [p0|]; [simpl in T1; discriminate|].
    assert (Hp := orElse_None _ _ ltac:(rewrite P1; reflexivity)).
    apply pickOne_None in Hp. injection T1 as <-.
    unfold orElse in Q1; simpl in Q1. rewrite Hp in Q1.
    discriminate. }
  split.
  - intros b Hb. destruct push1 as [b'|]; [injection Hb as ->|discriminate].
    destruct (take_step _ _ _ _ _ _ _ _ T2 Q2) as (Hb & _ & _).
    intros Eq; apply (has_false_neq used1 (key b) (key a) Hb Ka); auto.
  - intros d Hd. destruct post1 as [d'|]; [injection Hd as ->|discriminate].
    destruct (take_step _ _ _ _ _ _ _ _ T3 Q3) as (Hd & _ & _).
    intros Eq; apply (has_false_neq used2 (key d) (key a) Hd); auto.
    apply (take_incl _ _ _ _ T2), Ka.
Qed.

(** A run of [chooseStrength_pull_key_distinct] on sample inputs. *)
Lemma chooseStrength_pull_key_distinct_witness :
  chooseStrengthExercises strengthPool fastingCtx 7 = chosenW /\
  exists a b d, ch_pull (fst chosenW) = Some a /\ ch_push (fst chosenW) = Some b /\
  ch_posterior (fst chosenW) = Some d /\ key a <> key b /\ key a <> key d.
Proof.
  assert (E : chooseStrengthExercises strengthPool fastingCtx 7 = (fst chosenW, snd chosenW))
    by (vm_compute; reflexivity).
  split; [exact E|].
  do 3 eexists. split; [reflexivity|]. split; [reflexivity|]. split; [reflexivity|].
  match goal with |- key ?a <> key ?b /\ key _ <> key ?d =>
    destruct (chooseStrength_pull_key_distinct strengthPool fastingCtx 7
                (fst chosenW) (snd chosenW) a eq_refl E eq_refl) as [H1 H2] end.
  split; [apply H1|apply H2]; reflexivity.
Defined.

(** X14: [pack] never drops an exercise: it always builds the item, labelled
    with its family. A dose with at least one set keeps between one set
    and the target's sets (a rejected exercise loses one set, never going
    below one), and the band of a reps item never exceeds the exercise's
    [allowedMaxBand] when that is non-zero (a zero cap reads as missing
    under [||]). *)
Theorem pack_dose c e t0 label :
  exists it, pack c (Some e) t0 label = Some it /\
  i_family it = Some label /\
  (1 <= s_sets t0 -> 1 <= i_sets it <= s_sets t0) /\
  (forall b, i_band it = Some b -> allowedMaxBand e <> 0 -> b <= allowedMaxBand e).
Proof.
  unfold pack. eexists; split; [reflexivity|]. cbn [i_family i_sets i_band].
  split; [reflexivity|].
  destruct (validateExercise e (packCtx c t0)) eqn:V; cbn [s_sets s_band].
  - split; [lia|]. intros b Hb Hz.
    destruct (String.eqb _ "reps"); [injection Hb as <-|discriminate].
    unfold validateExercise, packCtx in V; cbn [vc_fasting vc_runDay vc_band] in V.
    destruct (fasting c && _); [discriminate|]. destruct (runDay c && _); [discriminate|].
    destruct (s_band t0 >? allowedMaxBand e) eqn:G; [discriminate|].
    rewrite Z.gtb_ltb in G; apply Z.ltb_ge in G; lia.
  - split; [unfold orZ; destruct (s_sets t0 =? 0) eqn:Z0; [apply Z.eqb_eq in Z0|]; lia|].
    intros b Hb Hz.
    destruct (String.eqb _ "reps"); [injection Hb as <-|discriminate].
    unfold orZ; destruct (allowedMaxBand e =? 0) eqn:A; [apply Z.eqb_eq in A; lia|lia].
Qed.

Lemma classify_ex raw : c_ex (classify raw) = normalizeExercise raw.
Proof.
  unfold classify; cbv zeta.
  repeat match goal with
         | |- context [match ?x with (_, _) => _ end] => destruct x
         end.
  reflexivity.
Qed.

Lemma classify_unit_side_plank raw :
  let n := lower (match rx_name raw with Some s => s | None => "" end) in
  includes n "side plank" || includes n "plank laterale" = true ->
  rx_unit (c_ex (classify raw)) = Some "seconds".
Proof.
  cbv zeta; intros H. rewrite classify_ex.
  unfold normalizeExercise, normalizeExercisePrescription; cbv zeta.
  cbn [rx_name rx_unit with_tags_unit with_requiresAnchor].
  rewrite H; reflexivity.
Qed.

(** X15: A catalog entry whose name contains "side plank" (or "plank
    laterale") is always packed as a timed item: unit "seconds", a 25 s
    hold, no reps and no band, whatever the targets say. *)
Theorem pack_side_plank_timed c raw t0 label :
  let n := lower (match rx_name raw with Some s => s | None => "" end) in
  includes n "side plank" || includes n "plank laterale" = true ->
  exists it, pack c (Some (classify raw)) t0 label = Some it /\
  i_unit it = "seconds" /\ i_seconds it = Some 25 /\ i_reps it = None /\ i_band it = None.
Proof.
  intros n H. unfold pack. rewrite (classify_unit_side_plank raw H).
  eexists; split; [reflexivity|]. cbn. auto.
Qed.

(** A run of [pack_side_plank_timed] on sample inputs. *)
Lemma pack_side_plank_timed_witness :
  exists it, pack (getContextForToday day0 runDayFlags) (Some (classify (named "sp" "Side plank")))
                  (mkSafeT 3 12 25 45) "core" = Some it /\ i_seconds it = Some 25.
Proof.
  destruct (pack_side_plank_timed (getContextForToday day0 runDayFlags)
              (named "sp" "Side plank") (mkSafeT 3 12 25 45) "core" eq_refl)
    as (it & E & _ & S & _).
  exists it; split; assumption.
Defined.

Lemma with_sets_same x : with_sets x (i_sets x) = x.
Proof. destruct x; reflexivity. Qed.

Lemma with_sets_twice x a b : with_sets (with_sets x a) b = with_sets x b.
Proof. destruct x; reflexivity. Qed.

Lemma with_rest_same x : with_restSec x (i_restSec x) = x.
Proof. destruct x; reflexivity. Qed.

Lemma Forall2_trans_item (R : item -> item -> Prop) :
  (forall x y z, R x y -> R y z -> R x z) ->
  forall l1 l2 l3, Forall2 R l1 l2 -> Forall2 R l2 l3 -> Forall2 R l1 l3.
Proof.
  intros T l1 l2 l3 H12; revert l3; induction H12; intros l3 H23; inversion H23; subst;
    constructor; eauto.
Qed.

Lemma Forall2_refl_item (R : item -> item -> Prop) l : (forall x, R x x) -> Forall2 R l l.
Proof. intros H; induction l; constructor; auto. Qed.

Lemma updateFirst_Forall2 (R : item -> item -> Prop) p f l it :
  (forall x, R x x) -> find p l = Some it -> R it (f it) ->
  Forall2 R l (updateFirst p f l).
Proof.
  intros Hr; induction l as [|x l IH]; simpl; [discriminate|].
  destruct (p x); intros F Hf.
  - injection F as ->. constructor; [auto|]. apply Forall2_refl_item; auto.
  - constructor; auto.
Qed.

Lemma fillRel_refl x : fillRel x x.
Proof. split; [symmetry; apply with_sets_same|lia]. Qed.

Lemma isFamily_with_sets fam x n : isFamily fam (with_sets x n) = isFamily fam x.
Proof. destruct x; reflexivity. Qed.

Lemma fillRel_trans x y z : fillRel x y -> fillRel y z -> fillRel x z.
Proof.
  intros [Ey By] [Ez Bz]. split.
  - rewrite Ez, Ey, with_sets_twice; reflexivity.
  - assert (Fy : isFamily "posterior" y = isFamily "posterior" x)
      by (rewrite Ey, isFamily_with_sets; reflexivity).
    rewrite Fy in Bz. destruct (isFamily "posterior" x); lia.
Qed.

Lemma addSet_fill fam m l s :
  m <= (if String.eqb fam "posterior" then 4 else 6) ->
  addSet fam m l = Some s -> Forall2 fillRel l s.
Proof.
  intros Hm. unfold addSet, findItem. destruct (find (isFamily fam) l) as [it|] eqn:F; [|discriminate].
  destruct (orZ (i_sets it) 1 >=? m) eqn:G; [discriminate|].
  intros H; injection H as <-. apply (updateFirst_Forall2 _ _ _ _ it); [apply fillRel_refl|auto|].
  apply find_some in F as [_ Fp].
  rewrite Z.geb_leb in G; apply Z.leb_gt in G. unfold orZ in G.
  split; [destruct it; reflexivity|].
  cbn [i_sets with_sets].
  assert (Hp : isFamily "posterior" it = String.eqb fam "posterior").
  { unfold isFamily in *. destruct (i_family it) as [f|]; [|discriminate].
    apply String.eqb_eq in Fp; subst; reflexivity. }
  rewrite Hp. destruct (i_sets it =? 0) eqn:Z0; [apply Z.eqb_eq in Z0|];
    destruct (String.eqb fam "posterior"); lia.
Qed.

Lemma fill_frame b targetMinutes :
  let b' := fillStrengthIfTooShort b targetMinutes in
  Forall2 fillRel (strength b) (strength b') /\
  warmup b' = warmup b /\ mobility b' = mobility b /\
  coreControl b' = coreControl b /\ cooldown b' = cooldown b.
Proof.
  cbv zeta. unfold fillStrengthIfTooShort. generalize (targetMinutes * 60) as t.
  generalize 40%nat as n. intros n t. revert b.
  induction n as [|n IH]; intros b; simpl.
  { repeat split; auto. apply Forall2_refl_item, fillRel_refl. }
  destruct (_ <? _); [|repeat split; auto; apply Forall2_refl_item, fillRel_refl].
  assert (Step : forall fam m s, m <= (if String.eqb fam "posterior" then 4 else 6) ->
            addSet fam m (strength b) = Some s ->
            let b2 := fillLoop n t (with_strength b s) in
            Forall2 fillRel (strength b) (strength b2) /\
            warmup b2 = warmup b /\ mobility b2 = mobility b /\
            coreControl b2 = coreControl b /\ cooldown b2 = cooldown b).
  { intros fam m s Hm Hs; cbv zeta.
    destruct (IH (with_strength b s)) as (F & W & M & C & D).
    repeat split; auto.
    eapply Forall2_trans_item; [exact fillRel_trans| |exact F].
    eapply addSet_fill; eauto. }
  destruct (addSet "pull" 6 (strength b)) eqn:E1; [apply (Step "pull" 6); auto; simpl; lia|].
  destruct (addSet "push" 6 (strength b)) eqn:E2; [apply (Step "push" 6); auto; simpl; lia|].
  destruct (addSet "posterior" _ (strength b)) eqn:E3;
    [apply (Step "posterior" (Z.min 4 (Z.max 1 (floor12 (setsOf "pull" (strength b))))) _ ltac:(simpl; lia) E3)|].
  repeat split; auto. apply Forall2_refl_item, fillRel_refl.
Qed.

(** X16: [fillStrengthIfTooShort] only ever adds sets: it keeps every strength
    item (same order, every other field unchanged), never lowers a set
    count, and never raises one beyond 6 sets, or 4 for the posterior
    family (a count already above stays put). The other blocks are left
    as they are. *)
Theorem fillStrength_only_adds_sets b targetMinutes :
  let b' := fillStrengthIfTooShort b targetMinutes in
  Forall2 fillRel (strength b) (strength b') /\
  warmup b' = warmup b /\ mobility b' = mobility b /\
  coreControl b' = coreControl b /\ cooldown b' = cooldown b.
Proof. exact (fill_frame b targetMinutes). Qed.

Lemma closeRel_refl x : closeRel x x.
Proof. split; [destruct x; reflexivity|lia]. Qed.

Lemma closeRel_trans x y z : closeRel x y -> closeRel y z -> closeRel x z.
Proof.
  intros [Ey By] [Ez Bz]. split; [|lia].
  rewrite Ez, Ey. destruct x; reflexivity.
Qed.

Lemma reduceSets_close fam l s : reduceSetsOfFamily fam l = Some s -> Forall2 closeRel l s.
Proof.
  unfold reduceSetsOfFamily, findItem. destruct (find (isFamily fam) l) as [it|] eqn:F; [|discriminate].
  destruct (orZ (i_sets it) 1 <=? 1) eqn:G; [discriminate|].
  intros H; injection H as <-. apply (updateFirst_Forall2 _ _ _ _ it); [apply closeRel_refl|auto|].
  apply Z.leb_gt in G. unfold orZ in G.
  split; [destruct it; reflexivity|]. cbn [i_sets i_restSec with_sets].
  destruct (i_sets it =? 0) eqn:Z0; [apply Z.eqb_eq in Z0|]; lia.
Qed.

Lemma restStep_close l it :
  findItem restAbove20 l = Some it ->
  Forall2 closeRel l (updateFirst restAbove20 (fun x => with_restSec x (Z.max 20 (i_restSec x - 5))) l).
Proof.
  intros F. apply (updateFirst_Forall2 _ _ _ _ it); [apply closeRel_refl|auto|].
  apply find_some in F as [_ Fp]. unfold restAbove20, orZ in Fp.
  apply Z.ltb_lt in Fp.
  split; [destruct it; reflexivity|]. cbn [i_sets i_restSec with_restSec].
  destruct (i_restSec it =? 0) eqn:Z0; [apply Z.eqb_eq in Z0|]; lia.
Qed.

Lemma close_frame b targetMinutes :
  let b' := closeToMinutes b targetMinutes in
  Forall2 closeRel (strength b) (strength b') /\
  coreControl b' = coreControl b /\ cooldown b' = cooldown b.
Proof.
  cbv zeta. unfold closeToMinutes. generalize (targetMinutes * 60) as t.
  generalize 50%nat as n. intros n t. revert b.
  induction n as [|n IH]; intros b; simpl.
  { repeat split; auto. apply Forall2_refl_item, closeRel_refl. }
  destruct (_ <? _); [|repeat split; auto; apply Forall2_refl_item, closeRel_refl].
  assert (Step : forall s, Forall2 closeRel (strength b) s ->
            let b2 := closeLoop n t (with_strength b s) in
            Forall2 closeRel (strength b) (strength b2) /\
            coreControl b2 = coreControl b /\ cooldown b2 = cooldown b).
  { intros s Hs; cbv zeta.
    destruct (IH (with_strength b s)) as (F & C & D).
    repeat split; auto.
    eapply Forall2_trans_item; [exact closeRel_trans|exact Hs|exact F]. }
  destruct (reduceSetsOfFamily "posterior" (strength b)) eqn:E1;
    [apply Step; eapply reduceSets_close; eauto|].
  destruct (reduceSetsOfFamily "push" (strength b)) eqn:E2;
    [apply Step; eapply reduceSets_close; eauto|].
  destruct (reduceSetsOfFamily "pull" (strength b)) eqn:E3;
    [apply Step; eapply reduceSets_close; eauto|].
  destruct (1 <? _).
  { destruct (IH (mkBlocks (pop (warmup b)) (mobility b) (strength b) (coreControl b) (cooldown b)))
      as (F & C & D); auto. }
  destruct (1 <? _).
  { destruct (IH (mkBlocks (warmup b) (pop (mobility b)) (strength b) (coreControl b) (cooldown b)))
      as (F & C & D); auto. }
  destruct (findItem restAbove20 (strength b)) as [it|] eqn:E4;
    [apply Step; eapply restStep_close; eauto|].
  repeat split; auto. apply Forall2_refl_item, closeRel_refl.
Qed.

(** X17: [closeToMinutes] only trims: it keeps every strength item (same order,
    every field but sets and rest unchanged), lowers a set count never
    below one set and a rest never below 20 s (values already below stay
    put), and leaves the core-control and cool-down blocks as they are. *)
Theorem closeToMinutes_only_trims b targetMinutes :
  let b' := closeToMinutes b targetMinutes in
  Forall2 closeRel (strength b) (strength b') /\
  coreControl b' = coreControl b /\ cooldown b' = cooldown b.
Proof. exact (close_frame b targetMinutes). Qed.

Lemma closeLoop_empty_warmup n t b :
  warmup b = [] -> mobility b = [] ->
  warmup (closeLoop n t b) = [] /\ mobility (closeLoop n t b) = [].
Proof.
  revert b; induction n as [|n IH]; intros b W M; simpl; [auto|].
  destruct (_ <? _); [|auto].
  destruct (reduceSetsOfFamily "posterior" (strength b)); [apply IH; auto|].
  destruct (reduceSetsOfFamily "push" (strength b)); [apply IH; auto|].
  destruct (reduceSetsOfFamily "pull" (strength b)); [apply IH; auto|].
  rewrite W, M; simpl.
  destruct (findItem restAbove20 (strength b)); [apply IH; auto|auto].
Qed.

Lemma closeToMinutes_empty_warmup b m :
  warmup b = [] -> mobility b = [] ->
  warmup (closeToMinutes b m) = [] /\ mobility (closeToMinutes b m) = [].
Proof. unfold closeToMinutes; apply closeLoop_empty_warmup. Qed.

Lemma coreControlBlock_shape :
  map (fun it => (i_name it, i_unit it, i_sets it, i_seconds it)) buildCoreControlBlock =
    [(Some "Plank", "seconds", 1, Some 23)].
Proof. vm_compute. reflexivity. Qed.

Lemma cooldownBlock_shape :
  map (fun it => (i_name it, i_unit it, i_sets it, i_seconds it)) buildCooldownBlock =
    [(Some "Respirazione diaframmatica (protocollo)", "seconds", 1, Some 48)].
Proof. vm_compute. reflexivity. Qed.

(** X18: Every generated plan has an empty warm-up and an empty mobility block
    (the targets carry no examples for them), a core-control block that is
    one 23 s plank, and a cool-down that is one 48 s breathing protocol. *)
Theorem generate_fixed_blocks st today db c :
  let b := s_blocks (generateFromContext st today db c) in
  warmup b = [] /\ mobility b = [] /\
  map (fun it => (i_name it, i_unit it, i_sets it, i_seconds it)) (coreControl b) =
    [(Some "Plank", "seconds", 1, Some 23)] /\
  map (fun it => (i_name it, i_unit it, i_sets it, i_seconds it)) (cooldown b) =
    [(Some "Respirazione diaframmatica (protocollo)", "seconds", 1, Some 48)].
Proof.
  cbv zeta. unfold generateFromContext; cbn [s_blocks].
  match goal with |- context [closeToMinutes (fillStrengthIfTooShort ?B ?m) _] =>
    destruct (fill_frame B m) as (_ & W & M & C & D);
    destruct (close_frame (fillStrengthIfTooShort B m) m) as (_ & C' & D');
    destruct (closeToMinutes_empty_warmup (fillStrengthIfTooShort B m) m) as [W' M']
  end.
  all: try (rewrite W; reflexivity). all: try (rewrite M; reflexivity).
  split; [exact W'|]. split; [exact M'|].
  rewrite C', D', C, D. cbn [coreControl cooldown].
  split; [apply coreControlBlock_shape|apply cooldownBlock_shape].
Qed.

Lemma fold_no_exercise (l : list item) acc :
  fold_left (fun '(ps, qs, hc) it =>
               match itemExercise it with
               | None => (ps, qs, hc)
               | Some raw =>
                   let ex := classify raw in
                   let sets := i_sets it in
                   (if String.eqb (family ex) "upper" then ps + sets else ps,
                    if String.eqb (family ex) "posterior" then qs + sets else qs,
                    if hinge ex then hc + 1 else hc)
               end) l acc = acc.
Proof.
  revert acc; induction l as [|x l IH]; intros [[ps qs] hc]; simpl; [reflexivity|apply IH].
Qed.

(** X19: The session-level checks never fire on a generated plan: its
    [sessionWarnings] are always exactly the three stop rules, because the
    strength items [pack] builds carry no [exercise] for
    [validateSession] to classify. *)
Theorem generate_sessionWarnings st today db c :
  m_sessionWarnings (s_meta (generateFromContext st today db c)) = TrainingKnowledge.stopRules.
Proof.
  unfold generateFromContext; cbn [s_meta m_sessionWarnings].
  unfold validateSession. rewrite fold_no_exercise. reflexivity.
Qed.

Lemma orElse_pick_some {A} (r : option A * Z) (l : list A) :
  l <> [] -> exists a y, orElse r (pickOne l) = (Some a, y).
Proof.
  intros Hl. unfold orElse. destruct r as [[a|] y]; simpl; [eauto|].
  destruct (pickOne_some l y Hl) as (a & E & _). rewrite E; eauto.
Qed.

Lemma chooseStrength_shape pool c x0 :
  let ch := fst (chooseStrengthExercises pool c x0) in
  (pool = [] -> ch_pull ch = None /\ ch_push ch = None /\ ch_posterior ch = None) /\
  (pool <> [] -> exists a, ch_pull ch = Some a).
Proof.
  cbv zeta. split.
  - intros ->. unfold chooseStrengthExercises, postPoolOf.
    destruct (runDay c); repeat split.
  - intros Hp. unfold chooseStrengthExercises.
    destruct (orElse_pick_some (pickOne (pullPoolOf pool) x0) pool Hp) as (p & y & E).
    rewrite E. cbv beta iota.
    destruct (orElse (pickOne (pushPoolOf pool) y) (pickOne pool)) as [push0 x2].
    destruct (orElse (orElse (pickOne (postPoolOf (runDay c) pool) x2) _) (pickOne pool)) as [post0 x3].
    cbn [take has existsb]. cbv beta iota. cbn [orElse fst].
    destruct (take [key p] push0) as [t2 u2]. destruct (orElse (t2, x3) _) as [push1 x5].
    destruct (take u2 post0) as [t3 u3]. destruct (orElse (t3, x5) _) as [post1 x6].
    cbn [fst ch_pull adapt]. destruct (negb (noAnchors c)); [eauto|].
    destruct (adaptNoAnchor p pool) as [[a _]|]; eauto.
Qed.

(** X20: The strength block of a generated plan is empty exactly for an empty
    catalog; otherwise it opens with the pull item, followed by at most a
    push item and then at most a posterior item, each family once. *)
Theorem generate_strength_families st today db c :
  let fams := map i_family (strength (s_blocks (generateFromContext st today db c))) in
  (db = [] -> fams = []) /\
  (db <> [] -> exists b1 b2 : bool,
     fams = (Some "pull" :: (if b1 then [Some "push"] else [])
             ++ (if b2 then [Some "posterior"] else []))%list).
Proof.
  cbv zeta.
  rewrite (SessionFacts.generate_strength_proj _ i_family st today db c)
    by (intros [] ?; reflexivity).
  unfold buildStrengthBlock.
  destruct (chooseStrength_shape (classifyAll db) c (rngInit (seedStr today c))) as [E N].
  destruct (chooseStrengthExercises (classifyAll db) c _) as [ch x'] eqn:C.
  cbn [fst] in E, N |- *.
  assert (Pk : forall e t l, exists it, pack c (Some e) t l = Some it /\ i_family it = Some l)
    by (intros; eexists; split; reflexivity).
  split.
  - intros ->. destruct (E eq_refl) as (-> & -> & ->). reflexivity.
  - intros Hdb. destruct N as (a & Ha).
    { destruct db; [congruence|discriminate]. }
    rewrite Ha.
    destruct (Pk a (safeTarget (strength_pull (getTargets st c))) "pull") as (i1 & -> & F1).
    exists (match ch_push ch with Some _ => true | None => false end),
           (match ch_posterior ch with Some _ => true | None => false end).
    simpl. rewrite F1.
    destruct (ch_push ch) as [b|], (ch_posterior ch) as [d|]; simpl; try reflexivity.
    all: rewrite ?map_app; simpl; reflexivity.
Qed.

End SessionExtra.

Module SessionStoreExtra.
Import StudyEngine Text SessionEngine SessionStore Examples MoreExamples.
Local Open Scope string_scope.
Local Open Scope Z_scope.

Lemma append_inj_len (x y u v : string) :
  String.length x = String.length y -> x ++ u = y ++ v -> x = y /\ u = v.
Proof.
  revert y; induction x as [|a x IH]; intros [|b y] L E; simpl in *; try discriminate; auto.
  injection L as L; injection E as -> E. destruct (IH y L E) as [-> ->]; auto.
Qed.

Lemma ctx_minutes_cases today f :
  let m := minutes (getContextForToday today f) in m = 25 \/ m = 30 \/ m = 35.
Proof.
  cbv zeta; unfold getContextForToday; cbn [minutes].
  destruct (f_minutes f) as [m|]; [|auto].
  destruct (m =? 35) eqn:A; [apply Z.eqb_eq in A; auto|].
  destruct (m =? 30) eqn:B; [apply Z.eqb_eq in B; auto|].
  destruct (m =? 25) eqn:C; [apply Z.eqb_eq in C; auto|]. simpl; auto.
Qed.

Lemma ctx_rpe3_cases today f :
  let p := rpe3 (getContextForToday today f) in p = 1 \/ p = 2 \/ p = 3.
Proof. cbv zeta; unfold getContextForToday; cbn [rpe3]; unfold clamp; lia. Qed.

Lemma bit_inj a b : bit a = bit b -> a = b.
Proof. destruct a, b; simpl; congruence. Qed.

Lemma todayKey_fields_iff today f1 f2 :
  let c1 := getContextForToday today f1 in
  let c2 := getContextForToday today f2 in
  todayKeyFromFlags today f1 = todayKeyFromFlags today f2 <->
  minutes c1 = minutes c2 /\ runDay c1 = runDay c2 /\ fasting c1 = fasting c2 /\
  rpe3 c1 = rpe3 c2 /\ noAnchors c1 = noAnchors c2.
Proof.
  cbv zeta. unfold todayKeyFromFlags, todayKeyBase; cbv zeta.
  set (c1 := getContextForToday today f1). set (c2 := getContextForToday today f2).
  split.
  2:{ intros (E1 & E2 & E3 & E4 & E5). rewrite E1, E2, E3, E4, E5. reflexivity. }
  intros E.
  apply append_inj_len in E as [_ E]; [|reflexivity].
  replace (dayKey c1) with today in E by reflexivity.
  replace (dayKey c2) with today in E by reflexivity.
  apply append_inj_len in E as [_ E]; [|reflexivity].
  apply append_inj_len in E as [_ E]; [|reflexivity].
  assert (M : minutes c1 = minutes c2).
  { destruct (ctx_minutes_cases today f1) as [A|[A|A]], (ctx_minutes_cases today f2) as [B|[B|B]];
      fold c1 in A; fold c2 in B; rewrite A, B in *; try reflexivity;
      apply append_inj_len in E as [E _]; try reflexivity; discriminate. }
  rewrite M in E. apply append_inj_len in E as [_ E]; [|reflexivity].
  apply append_inj_len in E as [_ E]; [|reflexivity].
  apply append_inj_len in E as [R E]; [|destruct (runDay c1), (runDay c2); reflexivity].
  apply append_inj_len in E as [F E]; [|destruct (fasting c1), (fasting c2); reflexivity].
  assert (P : rpe3 c1 = rpe3 c2).
  { destruct (ctx_rpe3_cases today f1) as [A|[A|A]], (ctx_rpe3_cases today f2) as [B|[B|B]];
      fold c1 in A; fold c2 in B; rewrite A, B in *; try reflexivity;
      apply append_inj_len in E as [E _]; try reflexivity; discriminate. }
  rewrite P in E. apply append_inj_len in E as [_ N]; [|reflexivity].
  repeat split; auto using bit_inj.
Qed.

(** X21: Two flag sets get the same today-session storage key exactly when
    their contexts agree on minutes, run day, fasting, rpe3 and the
    no-anchor flag: the key neither merges two different plans nor splits
    one plan over two keys. *)
Theorem todayKey_iff today f1 f2 :
  let c1 := getContextForToday today f1 in
  let c2 := getContextForToday today f2 in
  todayKeyFromFlags today f1 = todayKeyFromFlags today f2 <->
  minutes c1 = minutes c2 /\ runDay c1 = runDay c2 /\ fasting c1 = fasting c2 /\
  rpe3 c1 = rpe3 c2 /\ noAnchors c1 = noAnchors c2.
Proof. exact (todayKey_fields_iff today f1 f2). Qed.

Lemma generateSession_dayKey st today db f :
  m_dayKey (s_meta (generateSession st today db f)) = today.
Proof. reflexivity. Qed.

(** X22: The today-session cache is coherent: starting from storage with no
    entry under the key, a first [getOrCreateTodaySession] stores the plan
    it generates, and a second call with any flags that map to the same
    key returns that stored plan, which is exactly the plan generation
    would build for the second flags. *)
Theorem todaySession_cache_coherent s st today db f1 f2 :
  s (todayKeyFromFlags today f1) = None ->
  todayKeyFromFlags today f1 = todayKeyFromFlags today f2 ->
  let '(sess1, s1) := getOrCreateTodaySession s st today db f1 in
  let '(sess2, s2) := getOrCreateTodaySession s1 st today db f2 in
  sess1 = generateSession st today db f1 /\
  sess2 = sess1 /\ sess2 = generateSession st today db f2 /\ s2 = s1.
Proof.
  intros Hnone Hk.
  unfold getOrCreateTodaySession at 1. rewrite Hnone. cbv zeta.
  unfold getOrCreateTodaySession. rewrite <- Hk.
  unfold storeSet at 1. rewrite String.eqb_refl.
  rewrite generateSession_dayKey.
  replace (orS (Some (dayKey (getContextForToday today f2))) today) with today
    by (unfold orS; cbn [dayKey getContextForToday]; destruct (String.eqb today ""); auto).
  rewrite String.eqb_refl.
  split; [reflexivity|]. split; [reflexivity|]. split; [|reflexivity].
  apply todayKey_fields_iff in Hk as (E1 & E2 & E3 & E4 & E5).
  apply SessionFacts.generateFromContext_fields; assumption.
Qed.

(** A run of [todaySession_cache_coherent] on sample inputs. *)
Lemma todaySession_cache_coherent_witness :
  todayKeyFromFlags day0 runDayFlags = todayKeyFromFlags day0 flags40 /\
  let '(sess1, s1) := getOrCreateTodaySession (fun _ => None) defaultState day0 [rdlEntry] runDayFlags in
  let '(sess2, s2) := getOrCreateTodaySession s1 defaultState day0 [rdlEntry] flags40 in
  sess1 = generateSession defaultState day0 [rdlEntry] runDayFlags /\
  sess2 = sess1 /\ sess2 = generateSession defaultState day0 [rdlEntry] flags40 /\ s2 = s1.
Proof.
  split; [reflexivity|].
  exact (todaySession_cache_coherent (fun _ => None) defaultState day0
           [rdlEntry] runDayFlags flags40 eq_refl eq_refl).
Defined.

(** X23: [completeWorkout] does not guard against completing the same session
    twice: the second completion of a session dated on a valid day leaves
    the streak and the last completed day as the first one set them, but
    counts as another session of the week. *)
Theorem completeWorkout_twice today st sess p1 p2 n :
  dayNumber (m_dayKey (s_meta sess)) = Some n ->
  let st1 := completeWorkout today st sess p1 in
  let st2 := completeWorkout today st1 sess p2 in
  streak st2 = streak st1 /\ lastCompletedDay st2 = lastCompletedDay st1 /\
  sessionInWeek st2 = Z.rem (sessionInWeek st1 + 1) 3.
Proof.
  intros Hn. cbv zeta. unfold completeWorkout.
  assert (Nd := StudyEngineExtra.dayNumber_nonempty _ _ Hn).
  split; [|split; [rewrite !StudyEngineExtra.apply_lastCompletedDay; reflexivity|reflexivity]].
  rewrite StudyEngineExtra.apply_streak. cbn [r_dayKey].
  rewrite StudyEngineExtra.orS_some by assumption.
  unfold newStreak at 1. rewrite StudyEngineExtra.apply_lastCompletedDay. cbn [r_dayKey].
  rewrite StudyEngineExtra.orS_some by assumption.
  rewrite (proj2 (String.eqb_neq _ _) Nd), Hn, Z.sub_diag. reflexivity.
Qed.

(** A run of [completeWorkout_twice] on sample inputs. *)
Lemma completeWorkout_twice_witness :
  let sess := generateSession defaultState day0 [rdlEntry] runDayFlags in
  let st1 := completeWorkout day0 defaultState sess (mkPayload 10 10 10) in
  let st2 := completeWorkout day0 st1 sess (mkPayload 12 12 12) in
  streak st2 = streak st1 /\ lastCompletedDay st2 = lastCompletedDay st1 /\
  sessionInWeek st2 = Z.rem (sessionInWeek st1 + 1) 3.
Proof.
  exact (completeWorkout_twice day0 defaultState
           (generateSession defaultState day0 [rdlEntry] runDayFlags)
           (mkPayload 10 10 10) (mkPayload 12 12 12) 20743 eq_refl).
Defined.

End SessionStoreExtra.

(** ** Where the strength picks come from *)

Module SelectionFacts.
Import StudyEngine BiomechanicalEngine SessionEngine Examples.
Local Open Scope string_scope.
Local Open Scope Z_scope.

(** Where a de-duplicated pick comes from: the first pick, or the
    replacement drawn from the pool. *)
Lemma take_origin used ex t used' x P a y :
  take used ex = (t, used') ->
  orElse (t, x) (pickOne (filter (fun e => negb (has used' (key e))) P)) = (Some a, y) ->
  ex = Some a \/ List.In a P.
Proof.
  unfold take, orElse; simpl. intros T O.
  destruct ex as [e|].
  - destruct (has used (key e)); injection T as <- <-; simpl in O.
    + right. apply SessionExtra.pickOne_In, filter_In in O as [O _]; exact O.
    + left. congruence.
  - injection T as <- <-; simpl in O.
    right. apply SessionExtra.pickOne_In, filter_In in O as [O _]; exact O.
Qed.

(** A pick falls back to its second list only when its pool is empty. *)
Lemma pick_fallback {A} (P F : list A) x a y :
  orElse (pickOne P x) (pickOne F) = (Some a, y) -> List.In a P \/ (P = [] /\ List.In a F).
Proof.
  intros H. destruct P as [|h t].
  - right; split; [reflexivity|]. exact (SessionExtra.pickOne_In _ _ _ _ H).
  - left. destruct (SessionExtra.pickOne_some (h :: t) x ltac:(discriminate)) as (b & E & Hb).
    unfold orElse in H; rewrite E in H; simpl in H. injection H as <- _; exact Hb.
Qed.

Lemma pick_fallback2 {A} (P F1 F2 : list A) x a y :
  orElse (orElse (pickOne P x) (pickOne F1)) (pickOne F2) = (Some a, y) ->
  List.In a P \/ (P = [] /\ (List.In a F1 \/ (F1 = [] /\ List.In a F2))).
Proof.
  intros H. destruct P as [|h t].
  - right; split; [reflexivity|]. exact (pick_fallback F1 F2 x a y H).
  - left. destruct (SessionExtra.pickOne_some (h :: t) x ltac:(discriminate)) as (b & E & Hb).
    unfold orElse in H; rewrite E in H; simpl in H. injection H as <- _; exact Hb.
Qed.

(** Where each chosen movement comes from, with no-anchor adaptation off. *)
Lemma chooseStrength_fallback pool c x0 :
  noAnchors c = false ->
  let ch := fst (chooseStrengthExercises pool c x0) in
  let postFam := filter (fun e => String.eqb (family e) "posterior") pool in
  (forall a, ch_pull ch = Some a ->
     List.In a (pullPoolOf pool) \/ (pullPoolOf pool = [] /\ List.In a pool)) /\
  (forall b, ch_push ch = Some b ->
     List.In b (pushPoolOf pool) \/ (pushPoolOf pool = [] /\ List.In b pool)) /\
  (forall d, ch_posterior ch = Some d ->
     List.In d (postPoolOf (runDay c) pool) \/
     (postPoolOf (runDay c) pool = [] /\
      (List.In d postFam \/ (postFam = [] /\ List.In d pool)))) /\
  (pullPoolOf pool = [] -> ch_pull ch = fst (pickOne pool x0)).
Proof.
  intros Hna. cbv zeta. unfold chooseStrengthExercises. rewrite Hna.
  destruct (orElse (pickOne (pullPoolOf pool) x0) (pickOne pool)) as [pull0 x1] eqn:P1.
  destruct (orElse (pickOne (pushPoolOf pool) x1) (pickOne pool)) as [push0 x2] eqn:P2.
  destruct (orElse (orElse (pickOne (postPoolOf (runDay c) pool) x2) _) (pickOne pool)) as [post0 x3] eqn:P3.
  destruct (take [] pull0) as [t1 used1] eqn:T1.
  destruct (orElse (t1, x3) _) as [pull1 x4] eqn:Q1.
  destruct (take used1 push0) as [t2 used2] eqn:T2.
  destruct (orElse (t2, x4) _) as [push1 x5] eqn:Q2.
  destruct (take used2 post0) as [t3 used3] eqn:T3.
  destruct (orElse (t3, x5) _) as [post1 x6] eqn:Q3.
  cbn [fst ch_pull ch_push ch_posterior adapt negb].
  split; [|split; [|split]].
  - intros a Ha. destruct pull1 as [p|]; [injection Ha as ->|discriminate].
    destruct (take_origin _ _ _ _ _ _ _ _ T1 Q1) as [E|E]; [subst pull0|left; exact E].
    exact (pick_fallback _ _ _ _ _ P1).
  - intros b Hb. destruct push1 as [p|]; [injection Hb as ->|discriminate].
    destruct (take_origin _ _ _ _ _ _ _ _ T2 Q2) as [E|E]; [subst push0|left; exact E].
    exact (pick_fallback _ _ _ _ _ P2).
  - intros d Hd. destruct post1 as [p|]; [injection Hd as ->|discriminate].
    destruct (take_origin _ _ _ _ _ _ _ _ T3 Q3) as [E|E]; [subst post0|left; exact E].
    exact (pick_fallback2 _ _ _ _ _ _ P3).
  - intros Hpp. rewrite Hpp in P1, Q1. unfold orElse in P1; simpl in P1. rewrite P1.
    destruct pull0 as [p|].
    + simpl in T1. injection T1 as <- <-. unfold orElse in Q1; simpl in Q1. injection Q1 as <- _. reflexivity.
    + simpl in T1. injection T1 as <- <-. unfold orElse in Q1; simpl in Q1. injection Q1 as <- _. reflexivity.
Qed.

(** C3 (amended). Every selection pool excludes hinge movements (the pull
    and push pools on every day, the posterior pool on a run day), but a
    hinge can still reach the strength block. With no-anchor adaptation
    off, a chosen movement comes from its own pool unless that pool is
    empty: then the pull or push pick falls back to the unfiltered catalog
    (for pull, exactly the catalog pick), and the posterior pick to the
    catalog's posterior-family movements, or, when there are none, to the
    unfiltered catalog. [pack] keeps a movement that fails validation (a
    hinge on a run day, compressiveLoad above 1 while fasting), with one
    fewer set (at least 1) and the band capped at its allowedMaxBand.
    Selection reads only runDay and the no-anchor flag of the context:
    fasting does not filter it. *)
Theorem strength_gating_pools_and_pack :
  (forall cands e,
     In e (pullPoolOf cands) \/ In e (pushPoolOf cands) \/ In e (postPoolOf true cands) ->
     hinge e = false) /\
  (forall c e t label r,
     validateExercise e (packCtx c t) = Reject r ->
     exists it, pack c (Some e) t label = Some it /\
       i_pattern it = Some (pattern e) /\ i_id it = c_id e /\
       i_sets it = Z.max 1 (orZ (s_sets t) 2 - 1) /\
       (i_band it = None \/
        i_band it = Some (Z.min (s_band t) (orZ (allowedMaxBand e) (s_band t))))) /\
  (forall pool c1 c2 x,
     runDay c1 = runDay c2 -> noAnchors c1 = noAnchors c2 ->
     chooseStrengthExercises pool c1 x = chooseStrengthExercises pool c2 x) /\
  (forall pool c x0,
   noAnchors c = false ->
   let ch := fst (chooseStrengthExercises pool c x0) in
   let postFam := filter (fun e => String.eqb (family e) "posterior") pool in
   (forall a, ch_pull ch = Some a ->
      List.In a (pullPoolOf pool) \/ (pullPoolOf pool = [] /\ List.In a pool)) /\
   (forall b, ch_push ch = Some b ->
      List.In b (pushPoolOf pool) \/ (pushPoolOf pool = [] /\ List.In b pool)) /\
   (forall d, ch_posterior ch = Some d ->
      List.In d (postPoolOf (runDay c) pool) \/
      (postPoolOf (runDay c) pool = [] /\
       (List.In d postFam \/ (postFam = [] /\ List.In d pool)))) /\
   (pullPoolOf pool = [] -> ch_pull ch = fst (pickOne pool x0))).
Proof.
  split; [|split; [|split]].
  - intros cands e [H|[H|H]].
    + unfold pullPoolOf in H. rewrite filter_In in H. destruct H as [_ H].
      apply andb_prop in H as [_ H]. apply negb_true_iff; exact H.
    + unfold pushPoolOf in H. rewrite filter_In in H. destruct H as [_ H].
      apply andb_prop in H as [_ H]. apply negb_true_iff; exact H.
    + exact (SessionFacts.postPool_run_day_no_hinge cands e H).
  - intros c e t label r H. unfold pack. rewrite H.
    eexists; split; [reflexivity|]. simpl.
    split; [reflexivity|]. split; [reflexivity|]. split; [reflexivity|].
    destruct (String.eqb _ "reps"); [right|left]; reflexivity.
  - intros pool [d1 m1 r1 f1 p1 n1 e1] [d2 m2 r2 f2 p2 n2 e2] x Hr Hn.
    simpl in Hr, Hn. subst. reflexivity.
  - exact chooseStrength_fallback.
Qed.

(** A run of [strength_gating_pools_and_pack] on sample inputs: a band row
    is in the pull pool and is no hinge; on a run day a Romanian deadlift
    that fails validation is still packed, with 2 sets; and from a catalog
    holding only that deadlift, whose pull pool is empty, the pull pick is
    the deadlift itself. *)
Lemma strength_gating_pools_and_pack_witness :
  hinge (classify (named "row" "Band row")) = false /\
  (exists it, pack (getContextForToday day0 runDayFlags) (Some (classify rdlEntry))
                  (mkSafeT 3 12 25 45) "pull" = Some it /\
    i_pattern it = Some "hinge" /\ i_id it = Some "rdl" /\ i_sets it = 2 /\
    (i_band it = None \/ i_band it = Some 25)) /\
  ch_pull (fst (chooseStrengthExercises [classify rdlEntry] (getContextForToday day0 runDayFlags) 7))
    = Some (classify rdlEntry) /\
  hinge (classify rdlEntry) = true.
Proof.
  split; [|split; [|split]].
  - apply (proj1 strength_gating_pools_and_pack [classify (named "row" "Band row")]).
    left. vm_compute. left. reflexivity.
  - apply (proj1 (proj2 strength_gating_pools_and_pack)
             (getContextForToday day0 runDayFlags) (classify rdlEntry)
             (mkSafeT 3 12 25 45) "pull" "Run day: hinge escluso").
    vm_compute. reflexivity.
  - rewrite (proj2 (proj2 (proj2
               (proj2 (proj2 (proj2 strength_gating_pools_and_pack))
                  [classify rdlEntry] (getContextForToday day0 runDayFlags) 7
                  ltac:(vm_compute; reflexivity)))))
      by (vm_compute; reflexivity).
    vm_compute. reflexivity.
  - vm_compute. reflexivity.
Defined.

End SelectionFacts.
